(** * Cash-flow forecasting pipeline: baseline forecaster, behaviour
      metrics and cash-requirement engine

    A shallow embedding of [baseline_forecasting.py],
    [behavior_intelligence.py] and [cash_requirement_engine.py].

    Numbers.  The Python code computes on float64 columns.  Here a cell
    is an exact rational or the distinguished value [NaN] (pandas' missing
    value); arithmetic propagates [NaN], comparisons with [NaN] are false,
    and the aggregates follow pandas ([mean] of nothing and [std] of fewer
    than two values are [NaN]).  Rounding and overflow are not modelled:
    the properties stated below are those that hold operation by operation
    or by the order of the numbers, and none equates sums or products
    taken in two different groupings.  The ledger columns themselves hold
    numbers.

    Dates.  A date is its day number (days since 1970-01-01, a Thursday),
    so that adding [pd.Timedelta(days=1)] is [+ 1] and [dayofweek] is
    [(d + 3) mod 7] with Monday = 0. *)

From Stdlib Require Import ZArith QArith Qround Qabs Bool String List.
From Stdlib Require Import Lia Lqa Permutation Sorted.
Import ListNotations.

Open Scope Q_scope.

(** ** numpy / Python scalars *)

Inductive fval : Type :=
| Num (q : Q)
| NaN.

Definition Qlt_bool (x y : Q) : bool := negb (Qle_bool y x).

Module Np.

Definition isnan (x : fval) : bool :=
  match x with NaN => true | Num _ => false end.

Definition add (x y : fval) : fval :=
  match x, y with Num a, Num b => Num (a + b) | _, _ => NaN end.

Definition sub (x y : fval) : fval :=
  match x, y with Num a, Num b => Num (a - b) | _, _ => NaN end.

Definition mul (x y : fval) : fval :=
  match x, y with Num a, Num b => Num (a * b) | _, _ => NaN end.

(** [x / y].  Every division in the three files is guarded so that the
    divisor is a non-zero number; [0 / 0] is [NaN] in numpy, and the
    model has no infinity for the other zero-divisor quotients, which
    the guards exclude. *)
Definition div (x y : fval) : fval :=
  match x, y with
  | Num a, Num b => if Qeq_bool b 0 then NaN else Num (a / b)
  | _, _ => NaN
  end.

(** [x > y], [x < y], [x <= y]: false as soon as one side is [NaN]. *)
Definition gt (x y : fval) : bool :=
  match x, y with Num a, Num b => Qlt_bool b a | _, _ => false end.

Definition lt (x y : fval) : bool :=
  match x, y with Num a, Num b => Qlt_bool a b | _, _ => false end.

Definition le (x y : fval) : bool :=
  match x, y with Num a, Num b => Qle_bool a b | _, _ => false end.

Definition abs (x : fval) : fval :=
  match x with Num a => Num (Qabs a) | NaN => NaN end.

(** Python's builtin [max(a, b)]: [b] if [b > a], else [a]; so a [NaN]
    first argument is returned as it is. *)
Definition max (a b : fval) : fval := if gt b a then b else a.

(** Square root, rounded down to a fixed binary precision; [NaN] on a
    negative argument. *)
Definition sqrt_scale : positive := 2 ^ 52.

Definition sqrt (x : Q) : fval :=
  if Qlt_bool x 0 then NaN
  else Num (Z.sqrt (Qnum x * Zpos (Qden x) * Zpos (sqrt_scale * sqrt_scale))
            # (Qden x * sqrt_scale)).

(** [np.where(c, a, b)] and the two-condition [np.select] on one row. *)
Definition where_ {A : Type} (c : bool) (a b : A) : A := if c then a else b.

Definition select {A : Type} (c1 c2 : bool) (v1 v2 default : A) : A :=
  if c1 then v1 else if c2 then v2 else default.

End Np.

(** Equality of cells as values: rationals up to [==], [NaN] with [NaN]. *)
Definition feq (x y : fval) : Prop :=
  match x, y with
  | Num a, Num b => a == b
  | NaN, NaN => True
  | _, _ => False
  end.

Infix "=f=" := feq (at level 70, no associativity).

(** ** pandas Series and frame operations *)

Module Pd.

Fixpoint insert {A : Type} (leb : A -> A -> bool) (x : A) (l : list A) : list A :=
  match l with
  | [] => [x]
  | y :: r => if leb x y then x :: y :: r else y :: insert leb x r
  end.

(** Stable sort (rows with equal keys keep their order). *)
Definition sort {A : Type} (leb : A -> A -> bool) (l : list A) : list A :=
  fold_right (insert leb) [] l.

(** The sorted distinct keys a [groupby] iterates over. *)
Definition unique_strings (ks : list string) : list string :=
  sort String.leb (nodup string_dec ks).

Definition unique_Z (ks : list Z) : list Z :=
  sort Z.leb (nodup Z.eq_dec ks).

(** [s.tail(n)] *)
Definition tail {A : Type} (n : nat) (l : list A) : list A :=
  skipn (length l - n) l.

Definition sum (l : list Q) : Q := fold_right Qplus 0 l.

Definition count {A : Type} (l : list A) : Q := inject_Z (Z.of_nat (length l)).

(** [s.mean()]: [NaN] for an empty series. *)
Definition mean (l : list Q) : fval :=
  match l with
  | [] => NaN
  | _ :: _ => Num (sum l / count l)
  end.

(** [s.std()], sample standard deviation (ddof = 1): [NaN] when the
    series has at most one value. *)
Definition std (l : list Q) : fval :=
  match l with
  | [] | [_] => NaN
  | _ :: _ :: _ =>
      let avg := sum l / count l in
      let sqr := sum (map (fun x => (avg - x) * (avg - x)) l) in
      Np.sqrt (sqr / (count l - 1))
  end.

(** [s.quantile(q)], linear interpolation between order statistics.
    [None] is the [ValueError] raised for [q] outside [0, 1]. *)
Definition quantile (l : list Q) (q : Q) : option fval :=
  if negb (Qle_bool 0 q && Qle_bool q 1) then None
  else
    match sort Qle_bool l with
    | [] => Some NaN
    | (x0 :: _) as s =>
        let h := inject_Z (Z.of_nat (length s - 1)) * q in
        let lo := Z.to_nat (Qfloor h) in
        let g := h - inject_Z (Qfloor h) in
        let a := nth lo s x0 in
        let b := nth (S lo) s a in
        Some (Num (a + g * (b - a)))
    end.

(** Sum of a column that may hold [NaN], as [groupby(...).sum()] does
    it: missing values are skipped. *)
Definition nansum (l : list fval) : Q :=
  fold_right (fun x acc => match x with Num q => q + acc | NaN => acc end) 0 l.

Definition fillna (x v : fval) : fval :=
  match x with NaN => v | Num _ => x end.

(** [left.merge(right, on=key, how="left")]: every left row is kept, once
    per matching right row, and once with a missing right side when
    nothing matches. *)
Definition merge_left {L R : Type} (key_l : L -> string) (key_r : R -> string)
    (left : list L) (right : list R) : list (L * option R) :=
  flat_map
    (fun l =>
       match filter (fun r => String.eqb (key_r r) (key_l l)) right with
       | [] => [(l, None)]
       | ms => map (fun r => (l, Some r)) ms
       end)
    left.

(** [dict.get(k, default)] on a dict kept as its items. *)
Fixpoint get {V : Type} (d : list (Z * V)) (k : Z) (default : V) : V :=
  match d with
  | [] => default
  | (k', v) :: r => if Z.eqb k' k then v else get r k default
  end.

Definition dayofweek (d : Z) : Z := ((d + 3) mod 7)%Z.

(** [pd.date_range(start, periods, freq="D")] *)
Definition date_range (start : Z) (periods : nat) : list Z :=
  map (fun i => (start + Z.of_nat i)%Z) (seq 0 periods).

End Pd.

(** ** Tables *)

Module Ledger.
Record row : Type := mk {
  Date : Z;
  Account_ID : string;
  Inflow_INR : Q;
  Outflow_INR : Q;
  Balance_INR : Q
}.

Definition leb_date (r1 r2 : row) : bool := Z.leb (Date r1) (Date r2).

(** Order of [sort_values(["Account_ID", "Date"])]. *)
Definition leb_account_date (r1 r2 : row) : bool :=
  if String.eqb (Account_ID r1) (Account_ID r2) then Z.leb (Date r1) (Date r2)
  else String.leb (Account_ID r1) (Account_ID r2).

(** [df.groupby("Account_ID")]: the groups in key order, each with its
    rows in frame order. *)
Definition groupby_account (df : list row) : list (string * list row) :=
  map (fun k => (k, filter (fun r => String.eqb (Account_ID r) k) df))
      (Pd.unique_strings (map Account_ID df)).
End Ledger.

Module Forecast.
Record row : Type := mk {
  Date : Z;
  Account_ID : string;
  Predicted_Inflow : fval;
  Predicted_Outflow : fval;
  Model : string
}.
End Forecast.

Module BankForecast.
Record row : Type := mk {
  Date : Z;
  Predicted_Inflow : fval;
  Predicted_Outflow : fval;
  Model : string
}.
End BankForecast.

(** ** baseline_forecasting.py *)

Definition default_horizon : nat := 14.
Definition default_rolling_window : nat := 14.
Definition default_alpha : Q := 7 # 10.

(** Day-of-week averages of one column of a group,
    [g.groupby("DayOfWeek")[col].mean().to_dict()]. *)
Definition dow_profile (col : Ledger.row -> Q) (g : list Ledger.row) : list (Z * fval) :=
  map (fun w =>
         (w, Pd.mean (map col (filter (fun r => Z.eqb (Pd.dayofweek (Ledger.Date r)) w) g))))
      (Pd.unique_Z (map (fun r => Pd.dayofweek (Ledger.Date r)) g)).

(** The body of the loop over accounts: the forecast rows of one group. *)
Definition forecast_account (horizon rolling_window : nat) (alpha : Q)
    (acc : string) (g0 : list Ledger.row) : list Forecast.row :=
  let g := Pd.sort Ledger.leb_date g0 in
  match g with
  | [] => []
  | r0 :: rest =>
      let last_date := fold_left Z.max (map Ledger.Date rest) (Ledger.Date r0) in
      let roll_in := Pd.mean (Pd.tail rolling_window (map Ledger.Inflow_INR g)) in
      let roll_out := Pd.mean (Pd.tail rolling_window (map Ledger.Outflow_INR g)) in
      let dow_in_profile := dow_profile Ledger.Inflow_INR g in
      let dow_out_profile := dow_profile Ledger.Outflow_INR g in
      let future_dates := Pd.date_range (last_date + 1)%Z horizon in
      map (fun d =>
             let dow := Pd.dayofweek d in
             let dow_in := Pd.get dow_in_profile dow roll_in in
             let dow_out := Pd.get dow_out_profile dow roll_out in
             let pred_in :=
               Np.add (Np.mul (Num alpha) roll_in) (Np.mul (Num (1 - alpha)) dow_in) in
             let pred_out :=
               Np.add (Np.mul (Num alpha) roll_out) (Np.mul (Num (1 - alpha)) dow_out) in
             Forecast.mk d acc (Np.max pred_in (Num 0)) (Np.max pred_out (Num 0))
                         "BASELINE")
          future_dates
  end.

(** [account_forecast.groupby("Date")[[...]].sum().reset_index()] with the
    [Model] column added. *)
Definition bank_level_forecast (account_forecast : list Forecast.row) : list BankForecast.row :=
  map (fun d =>
         let rows := filter (fun r => Z.eqb (Forecast.Date r) d) account_forecast in
         BankForecast.mk d
           (Num (Pd.nansum (map Forecast.Predicted_Inflow rows)))
           (Num (Pd.nansum (map Forecast.Predicted_Outflow rows)))
           "BASELINE_BANK")
      (Pd.unique_Z (map Forecast.Date account_forecast)).

(** [run_baseline_forecasting(df, horizon, rolling_window, alpha)].
    When no forecast row was appended, [pd.DataFrame([])] has no columns
    and [groupby("Date")] raises [KeyError]: that is [None].  A negative
    [horizon] or [rolling_window] is outside the model. *)
Definition run_baseline_forecasting (df : list Ledger.row)
    (horizon rolling_window : nat) (alpha : Q)
  : option (list Forecast.row * list BankForecast.row) :=
  let df := Pd.sort Ledger.leb_account_date df in
  let forecasts :=
    flat_map (fun '(acc, g) => forecast_account horizon rolling_window alpha acc g)
             (Ledger.groupby_account df) in
  match forecasts with
  | [] => None
  | _ :: _ => Some (forecasts, bank_level_forecast forecasts)
  end.

(** The call with every keyword left at its default. *)
Definition run_baseline_forecasting_default (df : list Ledger.row) :=
  run_baseline_forecasting df default_horizon default_rolling_window default_alpha.

(** ** behavior_intelligence.py *)

Module Metrics.
Record row : Type := mk {
  Account_ID : string;
  Avg_Inflow : fval;
  Avg_Outflow : fval;
  Net_Flow : fval;
  Outflow_Volatility : fval;
  Outflow_CV : fval;
  Stability_Score : fval
}.
End Metrics.

Module Structural.
Record row : Type := mk {
  Account_ID : string;
  Structural_Inflow : fval;
  Volatile_Inflow : fval;
  Structural_Ratio : fval
}.
End Structural.

(** The body of the loop of [account_behavior_metrics]. *)
Definition behavior_record (acc : string) (g : list Ledger.row) : Metrics.row :=
  let avg_in := Pd.mean (map Ledger.Inflow_INR g) in
  let avg_out := Pd.mean (map Ledger.Outflow_INR g) in
  let std_in := Pd.std (map Ledger.Inflow_INR g) in
  let std_out := Pd.std (map Ledger.Outflow_INR g) in
  let cv_in := if Np.gt avg_in (Num 0) then Np.div std_in avg_in else NaN in
  let cv_out := if Np.gt avg_out (Num 0) then Np.div std_out avg_out else NaN in
  let stability_score :=
    if negb (Np.isnan cv_out) then Np.div (Num 1) (Np.add (Num 1) cv_out) else Num 0 in
  Metrics.mk acc avg_in avg_out (Np.sub avg_in avg_out) std_out cv_out stability_score.

Definition account_behavior_metrics (df : list Ledger.row) : list Metrics.row :=
  map (fun '(acc, g) => behavior_record acc g) (Ledger.groupby_account df).

Definition default_quantile : Q := 25 # 100.

(** The body of the loop of [structural_cash_estimation]; [None] when
    [quantile] raises. *)
Definition structural_record (quantile : Q) (acc : string) (g : list Ledger.row)
  : option Structural.row :=
  match Pd.quantile (map Ledger.Inflow_INR g) quantile with
  | None => None
  | Some structural_inflow =>
      let mean_inflow := Pd.mean (map Ledger.Inflow_INR g) in
      let volatile_part := Np.max (Np.sub mean_inflow structural_inflow) (Num 0) in
      Some (Structural.mk acc structural_inflow volatile_part
              (if Np.gt mean_inflow (Num 0) then Np.div structural_inflow mean_inflow
               else Num 0))
  end.

(** A loop whose body may raise: the first failure ends it. *)
Fixpoint traverse {A B : Type} (f : A -> option B) (l : list A) : option (list B) :=
  match l with
  | [] => Some []
  | x :: r =>
      match f x with
      | None => None
      | Some y =>
          match traverse f r with
          | None => None
          | Some ys => Some (y :: ys)
          end
      end
  end.

Definition structural_cash_estimation (df : list Ledger.row) (quantile : Q)
  : option (list Structural.row) :=
  traverse (fun '(acc, g) => structural_record quantile acc g) (Ledger.groupby_account df).

(** [preprocess], as far as the account tables depend on it: the frame
    sorted by account and date (the derived [Net_Cash] and calendar
    columns are read by the seasonality and bank tables only). *)
Definition preprocess (df : list Ledger.row) : list Ledger.row :=
  Pd.sort Ledger.leb_account_date df.

(** ** cash_requirement_engine.py *)

Definition default_stress_pct : Q := 15 # 100.
Definition default_confidence_factor : Q := 165 # 100.

Module Balances.
Record row : Type := mk {
  Account_ID : string;
  Balance_INR : fval
}.
End Balances.

Module Requirement.
Record row : Type := mk {
  Date : Z;
  Account_ID : string;
  Predicted_Inflow : fval;
  Predicted_Outflow : fval;
  Model : string;
  Outflow_Volatility : fval;
  Structural_Inflow : fval;
  Balance_INR : fval;
  Safety_Buffer : fval;
  Stress_Buffer : fval;
  Reliable_Inflow : fval;
  Required_Cash : fval;
  Funding_Gap : fval;
  Idle_Cash : fval;
  Action : string
}.
End Requirement.

Module BankRequirement.
Record row : Type := mk {
  Date : Z;
  Predicted_Inflow : fval;
  Predicted_Outflow : fval;
  Required_Cash : fval;
  Funding_Gap : fval;
  Idle_Cash : fval;
  Action : string
}.
End BankRequirement.

(** [t[["Account_ID", col]]]: the key and one column of a table. *)
Definition columns {R : Type} (key : R -> string) (cell : R -> fval) (t : list R)
  : list (string * fval) :=
  map (fun r => (key r, cell r)) t.

(** [df.merge(right, on="Account_ID", how="left")] for a two-column
    [right]: the frame with the column attached ([NaN] where nothing
    matched). *)
Definition merge_column {L : Type} (key_l : L -> string) (left : list L)
    (right : list (string * fval)) : list (L * fval) :=
  map (fun '(l, m) => (l, match m with Some m => snd m | None => NaN end))
      (Pd.merge_left key_l fst left right).

(** The three left merges on [Account_ID]: a forecast row with the
    [Outflow_Volatility], [Structural_Inflow] and [Balance_INR] cells the
    merges attach to it. *)
Definition merge_inputs
    (account_forecasts : list Forecast.row)
    (account_behavior_metrics : list Metrics.row)
    (structural_cash : list Structural.row)
    (balances : list Balances.row)
  : list (Forecast.row * fval * fval * fval) :=
  let df1 :=
    merge_column Forecast.Account_ID account_forecasts
      (columns Metrics.Account_ID Metrics.Outflow_Volatility account_behavior_metrics) in
  let df2 :=
    merge_column (fun fv => Forecast.Account_ID (fst fv)) df1
      (columns Structural.Account_ID Structural.Structural_Inflow structural_cash) in
  merge_column (fun fvs => Forecast.Account_ID (fst (fst fvs))) df2
    (columns Balances.Account_ID Balances.Balance_INR balances).

(** The column assignments of the engine, on one merged row. *)
Definition requirement_row (stress_pct confidence_factor : Q)
    (x : Forecast.row * fval * fval * fval) : Requirement.row :=
  let '(f, vol, struct_in, bal) := x in
  let Outflow_Volatility := Pd.fillna vol (Num 0) in
  let Structural_Inflow := Pd.fillna struct_in (Num 0) in
  let Balance_INR := Pd.fillna bal (Num 0) in
  let Safety_Buffer := Np.mul Outflow_Volatility (Num confidence_factor) in
  let Stress_Buffer := Np.mul (Forecast.Predicted_Outflow f) (Num stress_pct) in
  let Reliable_Inflow := Structural_Inflow in
  let Required_Cash :=
    Np.sub (Np.add (Np.add (Forecast.Predicted_Outflow f) Safety_Buffer) Stress_Buffer)
           Reliable_Inflow in
  let Funding_Gap := Np.sub Required_Cash Balance_INR in
  let Idle_Cash := Np.where_ (Np.lt Funding_Gap (Num 0)) (Np.abs Funding_Gap) (Num 0) in
  let Action :=
    Np.select (Np.gt Funding_Gap (Num 0)) (Np.le Funding_Gap (Num 0))
              "RAISE_FUNDS"%string "INVEST_SURPLUS"%string "MONITOR"%string in
  Requirement.mk (Forecast.Date f) (Forecast.Account_ID f)
    (Forecast.Predicted_Inflow f) (Forecast.Predicted_Outflow f) (Forecast.Model f)
    Outflow_Volatility Structural_Inflow Balance_INR
    Safety_Buffer Stress_Buffer Reliable_Inflow Required_Cash Funding_Gap Idle_Cash Action.

(** [df.groupby("Date")[[...]].sum().reset_index()] and the bank
    [Action]. *)
Definition bank_requirement (df : list Requirement.row) : list BankRequirement.row :=
  map (fun d =>
         let rows := filter (fun r => Z.eqb (Requirement.Date r) d) df in
         let Funding_Gap := Num (Pd.nansum (map Requirement.Funding_Gap rows)) in
         BankRequirement.mk d
           (Num (Pd.nansum (map Requirement.Predicted_Inflow rows)))
           (Num (Pd.nansum (map Requirement.Predicted_Outflow rows)))
           (Num (Pd.nansum (map Requirement.Required_Cash rows)))
           Funding_Gap
           (Num (Pd.nansum (map Requirement.Idle_Cash rows)))
           (Np.select (Np.gt Funding_Gap (Num 0)) (Np.le Funding_Gap (Num 0))
                      "BANK_FUNDING_REQUIRED"%string "BANK_HAS_EXCESS_LIQUIDITY"%string
                      "BANK_MONITOR"%string))
      (Pd.unique_Z (map Requirement.Date df)).

Definition run_cash_requirement_engine
    (account_forecasts : list Forecast.row)
    (account_behavior_metrics : list Metrics.row)
    (structural_cash : list Structural.row)
    (balances : list Balances.row)
    (stress_pct confidence_factor : Q)
  : list Requirement.row * list BankRequirement.row :=
  let df :=
    map (requirement_row stress_pct confidence_factor)
        (merge_inputs account_forecasts account_behavior_metrics structural_cash balances) in
  (df, bank_requirement df).

(** The call with [stress_pct] and [confidence_factor] left at their
    defaults. *)
Definition run_cash_requirement_engine_default
    (account_forecasts : list Forecast.row)
    (account_behavior_metrics : list Metrics.row)
    (structural_cash : list Structural.row)
    (balances : list Balances.row) :=
  run_cash_requirement_engine account_forecasts account_behavior_metrics
    structural_cash balances default_stress_pct default_confidence_factor.

(** ** behavior_intelligence.py: the calendar columns and the bank tables *)

(** Year, month and day of a day number in the proleptic Gregorian
    calendar (what [dt.year], [dt.month] and [dt.day] read off a
    timestamp), by the era / day-of-era decomposition: an era is 400
    years, 146097 days, and starts on a March 1st. *)
Definition civil_from_days (d : Z) : Z * Z * Z :=
  let z := (d + 719468)%Z in
  let era := (z / 146097)%Z in
  let doe := (z mod 146097)%Z in
  let yoe := ((doe - doe / 1460 + doe / 36524 - doe / 146096) / 365)%Z in
  let doy := (doe - (365 * yoe + yoe / 4 - yoe / 100))%Z in
  let mp := ((5 * doy + 2) / 153)%Z in
  let day := (doy - (153 * mp + 2) / 5 + 1)%Z in
  let month := (if mp <? 10 then mp + 3 else mp - 9)%Z in
  let year := (yoe + era * 400 + (if month <=? 2 then 1 else 0))%Z in
  (year, month, day).

(** The day number of a calendar date, the inverse decomposition. *)
Definition days_from_civil (y m d : Z) : Z :=
  let y' := (if m <=? 2 then y - 1 else y)%Z in
  let era := (y' / 400)%Z in
  let yoe := (y' mod 400)%Z in
  let doy := ((153 * (if m >? 2 then m - 3 else m + 9) + 2) / 5 + d - 1)%Z in
  let doe := (yoe * 365 + yoe / 4 - yoe / 100 + doy)%Z in
  (era * 146097 + doe - 719468)%Z.

Definition day_of_month (d : Z) : Z := snd (civil_from_days d).

Module Prep.
Record row : Type := mk {
  Date : Z;
  Account_ID : string;
  Inflow_INR : Q;
  Outflow_INR : Q;
  Balance_INR : Q;
  Net_Cash : Q;
  DayOfWeek : Z;
  DayOfMonth : Z;
  Is_Month_End : Z
}.

(** The columns the frame had before [preprocess]. *)
Definition ledger_row (r : row) : Ledger.row :=
  Ledger.mk (Date r) (Account_ID r) (Inflow_INR r) (Outflow_INR r) (Balance_INR r).
End Prep.

(** The column assignments of [preprocess] on one row. *)
Definition preprocess_row (r : Ledger.row) : Prep.row :=
  let DayOfMonth := day_of_month (Ledger.Date r) in
  Prep.mk (Ledger.Date r) (Ledger.Account_ID r) (Ledger.Inflow_INR r)
    (Ledger.Outflow_INR r) (Ledger.Balance_INR r)
    (Ledger.Inflow_INR r - Ledger.Outflow_INR r)
    (Pd.dayofweek (Ledger.Date r))
    DayOfMonth
    (if (25 <=? DayOfMonth)%Z then 1%Z else 0%Z).

(** [preprocess(df)] with its derived columns: the frame sorted by account
    and date, then [Net_Cash], [DayOfWeek], [DayOfMonth] and
    [Is_Month_End]. *)
Definition preprocess_columns (df : list Ledger.row) : list Prep.row :=
  map preprocess_row (Pd.sort Ledger.leb_account_date df).

Module Seasonal.
Record row : Type := mk {
  Key : Z;
  Inflow_INR : fval;
  Outflow_INR : fval
}.
End Seasonal.

(** [df.groupby(key)[["Inflow_INR", "Outflow_INR"]].mean().reset_index()] *)
Definition groupby_mean (key : Prep.row -> Z) (df : list Prep.row) : list Seasonal.row :=
  map (fun k =>
         let g := filter (fun r => Z.eqb (key r) k) df in
         Seasonal.mk k (Pd.mean (map Prep.Inflow_INR g)) (Pd.mean (map Prep.Outflow_INR g)))
      (Pd.unique_Z (map key df)).

(** [seasonality_analysis(df)]: the day-of-week table and the month-end
    table. *)
Definition seasonality_analysis (df : list Prep.row)
  : list Seasonal.row * list Seasonal.row :=
  (groupby_mean Prep.DayOfWeek df, groupby_mean Prep.Is_Month_End df).

Module BankDaily.
Record row : Type := mk {
  Date : Z;
  Inflow_INR : Q;
  Outflow_INR : Q;
  Net_Cash : Q
}.
End BankDaily.

Module BankSummary.
Record t : Type := mk {
  Avg_Daily_Inflow : fval;
  Avg_Daily_Outflow : fval;
  Net_Position : fval;
  Outflow_Volatility : fval
}.
End BankSummary.

(** [bank_level_summary(df)]: the daily sums over all accounts and their
    summary statistics. *)
Definition bank_level_summary (df : list Prep.row) : list BankDaily.row * BankSummary.t :=
  let bank_daily :=
    map (fun d =>
           let g := filter (fun r => Z.eqb (Prep.Date r) d) df in
           BankDaily.mk d (Pd.sum (map Prep.Inflow_INR g)) (Pd.sum (map Prep.Outflow_INR g))
                        (Pd.sum (map Prep.Net_Cash g)))
        (Pd.unique_Z (map Prep.Date df)) in
  (bank_daily,
   BankSummary.mk (Pd.mean (map BankDaily.Inflow_INR bank_daily))
                  (Pd.mean (map BankDaily.Outflow_INR bank_daily))
                  (Pd.mean (map BankDaily.Net_Cash bank_daily))
                  (Pd.std (map BankDaily.Outflow_INR bank_daily))).

(** ** app.py: the computations of the dashboard *)

Definition default_z : Q := 165 # 100.

Module Band.
Record row : Type := mk {
  Date : Z;
  Predicted_Inflow : fval;
  Predicted_Outflow : fval;
  Model : string;
  Upper_Bound : fval;
  Lower_Bound : fval
}.
End Band.

(** [add_confidence_band(forecast_df, historical_df, z)] on the bank
    forecast. *)
Definition add_confidence_band (forecast_df : list BankForecast.row)
    (historical_df : list Ledger.row) (z : Q) : list Band.row :=
  let std_outflow := Pd.std (map Ledger.Outflow_INR historical_df) in
  map (fun f =>
         Band.mk (BankForecast.Date f) (BankForecast.Predicted_Inflow f)
           (BankForecast.Predicted_Outflow f) (BankForecast.Model f)
           (Np.add (BankForecast.Predicted_Outflow f) (Np.mul (Num z) std_outflow))
           (Np.sub (BankForecast.Predicted_Outflow f) (Np.mul (Num z) std_outflow)))
      forecast_df.

Definition text_healthy : string :=
  "Liquidity conditions are healthy. Forecasted cashflows indicate surplus availability, supporting investment or redeployment decisions.".

Definition text_elevated : string :=
  "Stress scenarios indicate elevated funding risk. Additional liquidity buffers or proactive funding actions are recommended.".

Definition text_stable : string :=
  "Liquidity conditions are stable but warrant close monitoring, particularly under adverse outflow scenarios.".

(** [executive_summary(net_position, stress_level)] *)
Definition executive_summary (net_position : fval) (stress_level : Z) : string :=
  if Np.gt net_position (Num 0) && (stress_level <? 10)%Z then text_healthy
  else if (20 <=? stress_level)%Z then text_elevated
  else text_stable.

(** The monetary units of the sidebar and [UNIT_CONFIG]. *)
Inductive unit_choice : Type := INR | Lakhs | Millions.

Definition UNIT_CONFIG (u : unit_choice) : Q * string :=
  match u with
  | INR => (1, "₹"%string)
  | Lakhs => (100000, "₹ Lakhs"%string)
  | Millions => (1000000, "₹ Millions"%string)
  end.

Definition unit_divisor (u : unit_choice) : Q := fst (UNIT_CONFIG u).

(** The date filter of the dashboard, on the ledger and on a forecast
    table: rows dated within [start_date, end_date]. *)
Definition filter_period {R : Type} (date : R -> Z) (start_date end_date : Z)
    (df : list R) : list R :=
  filter (fun r => Z.leb start_date (date r) && Z.leb (date r) end_date) df.

(** The default analysis period, [df["Date"].min()] to [df["Date"].max()];
    [None] for a ledger without rows. *)
Definition default_period (df : list Ledger.row) : option (Z * Z) :=
  match map Ledger.Date df with
  | [] => None
  | d :: ds => Some (fold_left Z.min ds d, fold_left Z.max ds d)
  end.

Module Chart.
Record row : Type := mk {
  Date : Z;
  Predicted_Outflow : fval;
  Upper_Bound : fval;
  Lower_Bound : fval;
  Stress_Outflow : fval
}.
End Chart.

(** The frame of the forecast chart: the banded bank forecast in the
    chosen unit, with the stressed outflow
    [Predicted_Outflow * (1 + stress_pct / 100)]. *)
Definition forecast_chart (bank_fc : list BankForecast.row) (df_filtered : list Ledger.row)
    (u : unit_choice) (stress_pct : Z) : list Chart.row :=
  map (fun b =>
         let scaled x := Np.div x (Num (unit_divisor u)) in
         Chart.mk (Band.Date b) (scaled (Band.Predicted_Outflow b))
           (scaled (Band.Upper_Bound b)) (scaled (Band.Lower_Bound b))
           (Np.mul (scaled (Band.Predicted_Outflow b))
                   (Num (1 + inject_Z stress_pct / 100))))
      (add_confidence_band bank_fc df_filtered default_z).

(** ** The stages chained *)

(** The dashboard's call, [run_baseline_forecasting(df, horizon=60)]. *)
Definition dashboard_forecast (df : list Ledger.row) :=
  run_baseline_forecasting df 60 default_rolling_window default_alpha.

(** The master pipeline of [behavior_intelligence.py], as far as the
    engine reads it: the account metrics and the structural estimates of
    the preprocessed ledger. *)
Definition run_behavior_intelligence (df : list Ledger.row)
  : option (list Metrics.row * list Structural.row) :=
  let df := preprocess df in
  match structural_cash_estimation df default_quantile with
  | None => None
  | Some structural_cash => Some (account_behavior_metrics df, structural_cash)
  end.

(** The requirement table of the whole pipeline on a ledger, with the
    engine's defaults. *)
Definition pipeline_requirement (df : list Ledger.row) (balances : list Balances.row)
    (horizon : nat) : option (list Requirement.row) :=
  match run_baseline_forecasting df horizon default_rolling_window default_alpha,
        run_behavior_intelligence df with
  | Some (account_forecast, _), Some (account_metrics, structural_cash) =>
      Some (fst (run_cash_requirement_engine_default
                   account_forecast account_metrics structural_cash balances))
  | _, _ => None
  end.

(** ** Vocabulary of the statements *)

(** The rows of account [acc] in a frame. *)
Definition rows_of (acc : string) (df : list Ledger.row) : list Ledger.row :=
  filter (fun r => String.eqb (Ledger.Account_ID r) acc) df.

(** [m] is the maximum historical date of account [acc] in the ledger. *)
Definition last_historical_date (df : list Ledger.row) (acc : string) (m : Z) : Prop :=
  (exists r, In r df /\ Ledger.Account_ID r = acc /\ Ledger.Date r = m) /\
  (forall r, In r df -> Ledger.Account_ID r = acc -> (Ledger.Date r <= m)%Z).

(** The account rows a run appends, before the bank table is built. *)
Definition forecast_rows (df : list Ledger.row) (horizon rolling_window : nat) (alpha : Q)
  : list Forecast.row :=
  flat_map (fun '(acc, g) => forecast_account horizon rolling_window alpha acc g)
           (Ledger.groupby_account (Pd.sort Ledger.leb_account_date df)).

(** A cell that holds a number, and that number is not negative. *)
Definition nonneg (x : fval) : Prop := exists q, x = Num q /\ 0 <= q.

(** The account rows that forecast the date [d]. *)
Definition rows_on (d : Z) (af : list Forecast.row) : list Forecast.row :=
  filter (fun r => Z.eqb (Forecast.Date r) d) af.

(** The cell a left merge attaches to the rows of account [acc]: the cell
    of a matching right row, or [NaN] when no right row matches. *)
Definition attached {R : Type} (key : R -> string) (cell : R -> fval)
    (right : list R) (acc : string) (v : fval) : Prop :=
  (v = NaN /\ ~ In acc (map key right)) \/
  (exists r, In r right /\ key r = acc /\ v = cell r).

(** The five column formulas on one row. *)
Definition row_formulas (stress_pct confidence_factor : Q) (r : Requirement.row) : Prop :=
  Requirement.Safety_Buffer r =
    Np.mul (Requirement.Outflow_Volatility r) (Num confidence_factor) /\
  Requirement.Stress_Buffer r =
    Np.mul (Requirement.Predicted_Outflow r) (Num stress_pct) /\
  Requirement.Reliable_Inflow r = Requirement.Structural_Inflow r /\
  Requirement.Required_Cash r =
    Np.sub (Np.add (Np.add (Requirement.Predicted_Outflow r) (Requirement.Safety_Buffer r))
                   (Requirement.Stress_Buffer r))
           (Requirement.Reliable_Inflow r) /\
  Requirement.Funding_Gap r =
    Np.sub (Requirement.Required_Cash r) (Requirement.Balance_INR r).


(** The number a cell contributes to a sum that skips missing values. *)
Definition numeric (x : fval) : Q :=
  match x with Num q => q | NaN => 0 end.

(** The order of [sort_values(["Account_ID", "Date"])]: by account, and by
    date within an account. *)
Definition account_date_le (a b : Prep.row) : Prop :=
  String.ltb (Prep.Account_ID a) (Prep.Account_ID b) = true \/
  (Prep.Account_ID a = Prep.Account_ID b /\ (Prep.Date a <= Prep.Date b)%Z).

(** ** Sample tables *)

(** Fourteen identical daily rows of one account (2024-01-01 is day
    19723). *)
Definition ledger14 : list Ledger.row :=
  map (fun i => Ledger.mk (19723 + Z.of_nat i) "ACC001" 1000 800 5000) (seq 0 14).

Definition balances14 : list Balances.row := [Balances.mk "ACC001" (Num 5000)].

(** One account with a single historical row. *)
Definition ledger_single : list Ledger.row :=
  [Ledger.mk 19723 "ACC003" 400 250 9000].

(** An account whose recorded flows are negative, so that the blend is
    negative before the clamp. *)
Definition ledger_negative : list Ledger.row :=
  [Ledger.mk 19723 "ACC004" (-50) (-20) 100; Ledger.mk 19724 "ACC004" (-70) (-40) 100].

(** Two accounts observed on the same day, paying out 100 and 200. *)
Definition ledger_two_accounts : list Ledger.row :=
  [Ledger.mk 19723 "ACC001" 150 100 0; Ledger.mk 19723 "ACC002" 300 200 0].

(** An account that neither receives nor pays anything on two days. *)
Definition ledger_idle : list Ledger.row :=
  [Ledger.mk 19723 "ACC002" 0 0 2500; Ledger.mk 19724 "ACC002" 0 0 2500].

(** An account that pays out 100, 200 and 300 on three days. *)
Definition ledger_varying : list Ledger.row :=
  [Ledger.mk 19723 "ACC005" 500 100 0; Ledger.mk 19724 "ACC005" 500 200 0;
   Ledger.mk 19725 "ACC005" 500 300 0].

(** An account that receives 100, 200, 300 and 400 on four days. *)
Definition ledger_uneven : list Ledger.row :=
  [Ledger.mk 19723 "ACC006" 100 50 0; Ledger.mk 19724 "ACC006" 200 50 0;
   Ledger.mk 19725 "ACC006" 300 50 0; Ledger.mk 19726 "ACC006" 400 50 0].

(** A forecast row of an account that no other table knows. *)
Definition forecast_unknown_account : list Forecast.row :=
  [Forecast.mk 19737 "ACC009" (Num 1000) (Num 800) "BASELINE"].

(** A forecast row with a missing Predicted_Outflow, and no other input. *)
Definition forecast_missing_outflow : list Forecast.row :=
  [Forecast.mk 19737 "ACC001" (Num 1000) NaN "BASELINE"].

(** The forecast table of the two-account ledger, for a horizon of two
    days and the default window and weight. *)
Definition forecast_two_accounts : list Forecast.row :=
  forecast_rows ledger_two_accounts 2 default_rolling_window default_alpha.

(** * Properties *)

(** ** Sorting and grouping *)

Section Sorting.
Context {A : Type} (leb : A -> A -> bool).

Lemma insert_perm (x : A) (l : list A) : Permutation (Pd.insert leb x l) (x :: l).
Proof.
  induction l as [|y r IH]; simpl.
  - apply Permutation_refl.
  - destruct (leb x y).
    + apply Permutation_refl.
    + eapply perm_trans; [apply perm_skip, IH | apply perm_swap].
Qed.

Lemma sort_perm (l : list A) : Permutation (Pd.sort leb l) l.
Proof.
  induction l as [|x r IH]; simpl.
  - apply perm_nil.
  - eapply perm_trans; [apply insert_perm | apply perm_skip, IH].
Qed.

Lemma sort_In (l : list A) (x : A) : In x (Pd.sort leb l) <-> In x l.
Proof.
  split; apply Permutation_in; [apply sort_perm | apply Permutation_sym, sort_perm].
Qed.

Lemma sort_nil_inv (l : list A) : Pd.sort leb l = [] -> l = [].
Proof.
  intros H. apply Permutation_nil. rewrite <- H. apply sort_perm.
Qed.

End Sorting.

Lemma unique_strings_In (ks : list string) (k : string) :
  In k (Pd.unique_strings ks) <-> In k ks.
Proof. unfold Pd.unique_strings. rewrite sort_In. apply nodup_In. Qed.

Lemma unique_strings_NoDup (ks : list string) : NoDup (Pd.unique_strings ks).
Proof.
  unfold Pd.unique_strings.
  eapply Permutation_NoDup; [apply Permutation_sym, sort_perm | apply NoDup_nodup].
Qed.

Lemma unique_Z_In (ks : list Z) (k : Z) : In k (Pd.unique_Z ks) <-> In k ks.
Proof. unfold Pd.unique_Z. rewrite sort_In. apply nodup_In. Qed.

Lemma unique_Z_NoDup (ks : list Z) : NoDup (Pd.unique_Z ks).
Proof.
  unfold Pd.unique_Z.
  eapply Permutation_NoDup; [apply Permutation_sym, sort_perm | apply NoDup_nodup].
Qed.

Lemma rows_of_In (acc : string) (df : list Ledger.row) (r : Ledger.row) :
  In r (rows_of acc df) <-> In r df /\ Ledger.Account_ID r = acc.
Proof. unfold rows_of. rewrite filter_In, String.eqb_eq. tauto. Qed.

Lemma groupby_account_In (df : list Ledger.row) (k : string) (g : list Ledger.row) :
  In (k, g) (Ledger.groupby_account df) <->
  In k (map Ledger.Account_ID df) /\ g = rows_of k df.
Proof.
  unfold Ledger.groupby_account. rewrite in_map_iff. split.
  - intros [k' [E H]]. inversion E; subst. now rewrite unique_strings_In in H.
  - intros [H ->]. exists k. now rewrite unique_strings_In.
Qed.

Lemma groupby_account_keys (df : list Ledger.row) :
  map fst (Ledger.groupby_account df) = Pd.unique_strings (map Ledger.Account_ID df).
Proof.
  unfold Ledger.groupby_account. rewrite map_map. simpl. apply map_id.
Qed.

(** No group of a [groupby] is empty. *)
Lemma groupby_account_nonempty (df : list Ledger.row) (k : string) (g : list Ledger.row) :
  In (k, g) (Ledger.groupby_account df) -> g <> [].
Proof.
  rewrite groupby_account_In. intros [H ->] E.
  apply in_map_iff in H. destruct H as [r [Hk Hr]].
  assert (Hin : In r (rows_of k df)) by (apply rows_of_In; auto).
  rewrite E in Hin. destruct Hin.
Qed.

Lemma filter_none {B : Type} (f : B -> bool) (l : list B) :
  (forall x, In x l -> f x = false) -> filter f l = [].
Proof.
  induction l as [|x r IH]; intros H; simpl; [reflexivity|].
  rewrite (H x (or_introl eq_refl)). apply IH. intros y Hy. apply H. now right.
Qed.

Lemma filter_all {B : Type} (f : B -> bool) (l : list B) :
  (forall x, In x l -> f x = true) -> filter f l = l.
Proof.
  induction l as [|x r IH]; intros H; simpl; [reflexivity|].
  rewrite (H x (or_introl eq_refl)). f_equal. apply IH. intros y Hy. apply H. now right.
Qed.

(** What a loop over the groups appends for one key, when the body only
    produces rows that carry the key of their group. *)
Section LoopOverGroups.
Context {K G B : Type} (eqb : K -> K -> bool) (key : B -> K) (body : K -> G -> list B).
Hypothesis eqb_eq : forall a b, eqb a b = true <-> a = b.
Hypothesis own : forall k g b, In b (body k g) -> key b = k.

Lemma flat_map_filter_absent (groups : list (K * G)) (k : K) :
  ~ In k (map fst groups) ->
  filter (fun b => eqb (key b) k) (flat_map (fun '(k', g') => body k' g') groups) = [].
Proof.
  intros Hk. apply filter_none. intros b Hb.
  apply in_flat_map in Hb. destruct Hb as [[k' g'] [Hin Hb]].
  destruct (eqb (key b) k) eqn:E; [|reflexivity].
  exfalso. apply Hk. apply eqb_eq in E. rewrite <- E, (own _ _ _ Hb).
  apply in_map_iff. now exists (k', g').
Qed.

Lemma flat_map_filter_key (groups : list (K * G)) (k : K) (g : G) :
  NoDup (map fst groups) ->
  In (k, g) groups ->
  filter (fun b => eqb (key b) k) (flat_map (fun '(k', g') => body k' g') groups) = body k g.
Proof.
  induction groups as [|[k1 g1] rest IH]; intros Hnd Hin; [destruct Hin|].
  simpl in Hnd. apply NoDup_cons_iff in Hnd. destruct Hnd as [Hk1 Hnd].
  simpl. rewrite filter_app. destruct Hin as [E | Hin].
  - inversion E; subst k1 g1.
    rewrite flat_map_filter_absent by assumption. rewrite app_nil_r.
    apply filter_all. intros b Hb. apply eqb_eq. eauto.
  - rewrite (IH Hnd Hin).
    rewrite filter_none; [reflexivity|].
    intros b Hb. destruct (eqb (key b) k) eqn:E; [|reflexivity].
    exfalso. apply Hk1. apply eqb_eq in E. rewrite (own _ _ _ Hb) in E. subst k1.
    apply in_map_iff. now exists (k, g).
Qed.

End LoopOverGroups.

(** ** The baseline forecaster *)

Lemma fold_left_max_ge (l : list Z) (x : Z) :
  (x <= fold_left Z.max l x)%Z /\ (forall y, In y l -> (y <= fold_left Z.max l x)%Z).
Proof.
  revert x. induction l as [|a r IH]; intros x; simpl.
  - split; [lia | intros y []].
  - destruct (IH (Z.max x a)) as [H1 H2]. split; [lia|].
    intros y [<- | Hy]; [lia | auto].
Qed.

Lemma fold_left_max_In (l : list Z) (x : Z) : In (fold_left Z.max l x) (x :: l).
Proof.
  revert x. induction l as [|a r IH]; intros x; simpl.
  - now left.
  - destruct (IH (Z.max x a)) as [H | H].
    + rewrite <- H.
      destruct (Z.max_spec x a) as [[_ E] | [_ E]]; rewrite E; auto.
    + right. now right.
Qed.

Lemma forecast_account_own (horizon rolling_window : nat) (alpha : Q)
    (k : string) (g : list Ledger.row) (b : Forecast.row) :
  In b (forecast_account horizon rolling_window alpha k g) -> Forecast.Account_ID b = k.
Proof.
  unfold forecast_account. destruct (Pd.sort Ledger.leb_date g); [intros []|].
  rewrite in_map_iff. intros [d [<- _]]. reflexivity.
Qed.

Lemma forecast_account_dates (horizon rolling_window : nat) (alpha : Q)
    (k : string) (g : list Ledger.row) (r0 : Ledger.row) (rest : list Ledger.row) :
  Pd.sort Ledger.leb_date g = r0 :: rest ->
  map Forecast.Date (forecast_account horizon rolling_window alpha k g) =
  Pd.date_range (fold_left Z.max (map Ledger.Date rest) (Ledger.Date r0) + 1) horizon.
Proof.
  intros E. unfold forecast_account. rewrite E. rewrite map_map. simpl. apply map_id.
Qed.

(** The forecast dates of a non-empty group start the day after its
    greatest date. *)
Lemma forecast_account_dates_max (horizon rolling_window : nat) (alpha : Q)
    (k : string) (g : list Ledger.row) (m : Z) :
  (exists r, In r g /\ Ledger.Date r = m) ->
  (forall r, In r g -> (Ledger.Date r <= m)%Z) ->
  map Forecast.Date (forecast_account horizon rolling_window alpha k g) =
  Pd.date_range (m + 1) horizon.
Proof.
  intros [r [Hr Hm]] Hmax.
  destruct (Pd.sort Ledger.leb_date g) as [|r0 rest] eqn:E.
  { apply sort_nil_inv in E. subst g. destruct Hr. }
  rewrite (forecast_account_dates _ _ _ _ _ _ _ E). do 2 f_equal.
  assert (Hmem : forall x, In x (r0 :: rest) <-> In x g).
  { intros x. rewrite <- E. apply sort_In. }
  set (M := fold_left Z.max (map Ledger.Date rest) (Ledger.Date r0)).
  assert (HM : In M (map Ledger.Date (r0 :: rest))) by apply fold_left_max_In.
  apply in_map_iff in HM. destruct HM as [rM [EM HrM]].
  apply Hmem in HrM. apply Hmax in HrM.
  apply Hmem in Hr. destruct (fold_left_max_ge (map Ledger.Date rest) (Ledger.Date r0))
    as [G0 G]. fold M in G0, G.
  assert (m <= M)%Z.
  { destruct Hr as [<- | Hr]; [now rewrite <- Hm|].
    apply G. rewrite <- Hm. now apply in_map. }
  lia.
Qed.

Lemma date_range_NoDup (start : Z) (periods : nat) : NoDup (Pd.date_range start periods).
Proof.
  unfold Pd.date_range. apply NoDup_map_NoDup_ForallPairs; [|apply seq_NoDup].
  intros i j _ _ H. lia.
Qed.

Lemma run_baseline_forecasting_rows (df : list Ledger.row) (horizon rolling_window : nat)
    (alpha : Q) :
  run_baseline_forecasting df horizon rolling_window alpha =
  match forecast_rows df horizon rolling_window alpha with
  | [] => None
  | _ :: _ => Some (forecast_rows df horizon rolling_window alpha,
                    bank_level_forecast (forecast_rows df horizon rolling_window alpha))
  end.
Proof. reflexivity. Qed.

Lemma run_baseline_forecasting_Some (df : list Ledger.row) (horizon rolling_window : nat)
    (alpha : Q) (af : list Forecast.row) (bf : list BankForecast.row) :
  run_baseline_forecasting df horizon rolling_window alpha = Some (af, bf) ->
  af = forecast_rows df horizon rolling_window alpha /\ bf = bank_level_forecast af.
Proof.
  rewrite run_baseline_forecasting_rows.
  destruct (forecast_rows df horizon rolling_window alpha); [discriminate|].
  intros E. inversion E. auto.
Qed.

(** The rows of one account among the appended rows are those of its own
    loop iteration. *)
Lemma forecast_rows_of_account (df : list Ledger.row) (horizon rolling_window : nat)
    (alpha : Q) (acc : string) :
  In acc (map Ledger.Account_ID df) ->
  filter (fun r => String.eqb (Forecast.Account_ID r) acc)
         (forecast_rows df horizon rolling_window alpha) =
  forecast_account horizon rolling_window alpha acc
    (rows_of acc (Pd.sort Ledger.leb_account_date df)).
Proof.
  intros Hacc. unfold forecast_rows.
  apply (flat_map_filter_key String.eqb Forecast.Account_ID
           (forecast_account horizon rolling_window alpha)).
  - apply String.eqb_eq.
  - apply forecast_account_own.
  - rewrite groupby_account_keys. apply unique_strings_NoDup.
  - apply groupby_account_In. split; [|reflexivity].
    apply in_map_iff in Hacc. destruct Hacc as [r [E Hr]].
    apply in_map_iff. exists r. split; [assumption|]. now apply sort_In.
Qed.

Lemma forecast_rows_dates (df : list Ledger.row) (horizon rolling_window : nat)
    (alpha : Q) (acc : string) (m : Z) :
  last_historical_date df acc m ->
  map Forecast.Date
      (filter (fun r => String.eqb (Forecast.Account_ID r) acc)
              (forecast_rows df horizon rolling_window alpha)) =
  Pd.date_range (m + 1) horizon.
Proof.
  intros [[r [Hr [Hacc Hm]]] Hmax].
  rewrite forecast_rows_of_account.
  2:{ apply in_map_iff. now exists r. }
  apply forecast_account_dates_max.
  - exists r. split; [|assumption]. apply rows_of_In. split; [|assumption].
    now apply sort_In.
  - intros x Hx. apply rows_of_In in Hx. destruct Hx as [Hx Hk].
    apply sort_In in Hx. now apply Hmax.
Qed.

Lemma forecast_rows_NoDup (df : list Ledger.row) (horizon rolling_window : nat) (alpha : Q) :
  NoDup (map (fun r => (Forecast.Date r, Forecast.Account_ID r))
             (forecast_rows df horizon rolling_window alpha)).
Proof.
  unfold forecast_rows.
  pose proof (groupby_account_keys (Pd.sort Ledger.leb_account_date df)) as Hk.
  pose proof (unique_strings_NoDup
                (map Ledger.Account_ID (Pd.sort Ledger.leb_account_date df))) as Hnd.
  rewrite <- Hk in Hnd. clear Hk.
  induction (Ledger.groupby_account (Pd.sort Ledger.leb_account_date df))
    as [|[k g] rest IH]; simpl; [constructor|].
  simpl in Hnd. apply NoDup_cons_iff in Hnd. destruct Hnd as [Hk Hnd].
  rewrite map_app. apply NoDup_app.
  - destruct (Pd.sort Ledger.leb_date g) as [|r0 rs] eqn:E.
    + unfold forecast_account. rewrite E. constructor.
    + apply (NoDup_map_inv fst). rewrite map_map. simpl.
      change (NoDup (map Forecast.Date (forecast_account horizon rolling_window alpha k g))).
      rewrite (forecast_account_dates _ _ _ _ _ _ _ E). apply date_range_NoDup.
  - apply IH, Hnd.
  - intros [d a] H1 H2.
    apply in_map_iff in H1. destruct H1 as [b1 [E1 H1]].
    apply in_map_iff in H2. destruct H2 as [b2 [E2 H2]].
    apply forecast_account_own in H1.
    apply in_flat_map in H2. destruct H2 as [[k' g'] [Hin H2]].
    apply forecast_account_own in H2.
    inversion E1; inversion E2; subst.
    apply Hk. apply in_map_iff. exists (Forecast.Account_ID b2, g'). split; [|assumption].
    simpl. congruence.
Qed.

(** The rows a run emits for one account. *)
Lemma run_baseline_forecasting_account (df : list Ledger.row)
    (horizon rolling_window : nat) (alpha : Q) (acc : string) (m : Z) :
  (0 < horizon)%nat ->
  last_historical_date df acc m ->
  exists af bf,
    run_baseline_forecasting df horizon rolling_window alpha = Some (af, bf) /\
    length (filter (fun r => String.eqb (Forecast.Account_ID r) acc) af) = horizon /\
    map Forecast.Date (filter (fun r => String.eqb (Forecast.Account_ID r) acc) af) =
      Pd.date_range (m + 1) horizon /\
    NoDup (map (fun r => (Forecast.Date r, Forecast.Account_ID r)) af).
Proof.
  intros Hh Hm.
  pose proof (forecast_rows_dates df horizon rolling_window alpha acc m Hm) as Hd.
  rewrite run_baseline_forecasting_rows.
  destruct (forecast_rows df horizon rolling_window alpha) as [|b bs] eqn:E.
  { simpl in Hd. destruct horizon; [lia | discriminate]. }
  rewrite <- E in *. eexists. eexists. split; [reflexivity|].
  split; [|split].
  - rewrite <- (length_map Forecast.Date), Hd. unfold Pd.date_range.
    now rewrite length_map, length_seq.
  - exact Hd.
  - apply forecast_rows_NoDup.
Qed.

(** C3, amended.  For every account of the ledger (one historical row is
    enough) and every horizon of at least one day, the run succeeds and
    the account's forecast rows are exactly [horizon] rows, dated with the
    consecutive calendar days that begin the day after the account's
    maximum historical date; and no (Date, Account_ID) pair occurs twice
    in the account-level table. *)
Theorem forecast_dates_contiguous (df : list Ledger.row) (horizon rolling_window : nat)
    (alpha : Q) (acc : string) (m : Z) :
  (0 < horizon)%nat ->
  last_historical_date df acc m ->
  exists af bf,
    run_baseline_forecasting df horizon rolling_window alpha = Some (af, bf) /\
    let rows := filter (fun r => String.eqb (Forecast.Account_ID r) acc) af in
    length rows = horizon /\
    map Forecast.Date rows = map (fun i => (m + 1 + Z.of_nat i)%Z) (seq 0 horizon) /\
    NoDup (map (fun r => (Forecast.Date r, Forecast.Account_ID r)) af).
Proof.
  intros Hh Hm.
  destruct (run_baseline_forecasting_account df horizon rolling_window alpha acc m Hh Hm)
    as [af [bf [Hrun [Hlen [Hdates Hnd]]]]].
  exists af, bf. split; [exact Hrun|]. cbv zeta. auto.
Qed.

Lemma mean_Num (l : list Q) : l <> [] -> exists q, Pd.mean l = Num q.
Proof. destruct l; [congruence | intros _; eexists; reflexivity]. Qed.

Lemma tail_nonempty {A : Type} (n : nat) (l : list A) :
  (0 < n)%nat -> l <> [] -> Pd.tail n l <> [].
Proof.
  intros Hn Hl E. apply (f_equal (@length A)) in E.
  unfold Pd.tail in E. rewrite length_skipn in E.
  destruct l as [|x l]; [congruence|].
  change (length (x :: l)) with (S (length l)) in E.
  change (length (@nil A)) with 0%nat in E. lia.
Qed.

Lemma map_nonempty {A B : Type} (f : A -> B) (l : list A) : l <> [] -> map f l <> [].
Proof. destruct l; [congruence | discriminate]. Qed.

Lemma dow_profile_Num (col : Ledger.row -> Q) (g : list Ledger.row) (w : Z) (v : fval) :
  In (w, v) (dow_profile col g) -> exists q, v = Num q.
Proof.
  unfold dow_profile. rewrite in_map_iff. intros [w' [E Hw]].
  inversion E; subst. rewrite unique_Z_In in Hw. apply in_map_iff in Hw.
  destruct Hw as [r [Hr Hin]]. apply mean_Num. apply map_nonempty.
  intros Hnil.
  assert (H : In r (filter (fun r0 => (Pd.dayofweek (Ledger.Date r0) =? w)%Z) g)).
  { apply filter_In. split; [assumption|]. now apply Z.eqb_eq. }
  rewrite Hnil in H. destruct H.
Qed.

Lemma get_ind {V : Type} (P : V -> Prop) (d : list (Z * V)) (k : Z) (default : V) :
  (forall k' v, In (k', v) d -> P v) -> P default -> P (Pd.get d k default).
Proof.
  induction d as [|[k' v] r IH]; intros Hd Hdef; simpl; [assumption|].
  destruct (k' =? k)%Z.
  - apply (Hd k'). now left.
  - apply IH; [|assumption]. intros k'' v' H. apply (Hd k''). now right.
Qed.

Lemma Qlt_bool_iff (x y : Q) : Qlt_bool x y = true <-> x < y.
Proof.
  unfold Qlt_bool. rewrite negb_true_iff. split.
  - intros H. apply Qnot_le_lt. intros Hle. apply Qle_bool_iff in Hle. congruence.
  - intros H. destruct (Qle_bool y x) eqn:E; [|reflexivity].
    apply Qle_bool_iff in E. exfalso. apply (Qlt_not_le _ _ H E).
Qed.

Lemma Qlt_bool_false_iff (x y : Q) : Qlt_bool x y = false <-> y <= x.
Proof.
  unfold Qlt_bool. rewrite negb_false_iff. apply Qle_bool_iff.
Qed.

(** The clamp [max(pred, 0)] of a number. *)
Lemma max_zero_nonneg (p : Q) : nonneg (Np.max (Num p) (Num 0)).
Proof.
  unfold Np.max, Np.gt. destruct (Qlt_bool p 0) eqn:E.
  - exists 0. split; [reflexivity | apply Qle_refl].
  - exists p. split; [reflexivity | now apply Qlt_bool_false_iff].
Qed.

Lemma blend_clamped (alpha : Q) (roll dow : fval) :
  (exists a, roll = Num a) -> (exists b, dow = Num b) ->
  nonneg (Np.max (Np.add (Np.mul (Num alpha) roll) (Np.mul (Num (1 - alpha)) dow)) (Num 0)).
Proof. intros [a ->] [b ->]. simpl. apply max_zero_nonneg. Qed.

Lemma forecast_account_nonneg (horizon rolling_window : nat) (alpha : Q)
    (k : string) (g : list Ledger.row) (b : Forecast.row) :
  (0 < rolling_window)%nat ->
  In b (forecast_account horizon rolling_window alpha k g) ->
  nonneg (Forecast.Predicted_Inflow b) /\ nonneg (Forecast.Predicted_Outflow b).
Proof.
  intros Hw. unfold forecast_account.
  destruct (Pd.sort Ledger.leb_date g) as [|r0 rest] eqn:E; [intros []|].
  rewrite in_map_iff. intros [d [<- _]]. simpl.
  assert (Hroll : forall col : Ledger.row -> Q,
             exists a, Pd.mean (Pd.tail rolling_window (map col (r0 :: rest))) = Num a).
  { intros col. apply mean_Num, tail_nonempty; [assumption | discriminate]. }
  split; apply blend_clamped; try apply Hroll;
    (apply get_ind; [intros k' v; apply dow_profile_Num | apply Hroll]).
Qed.

Lemma nansum_nonneg (l : list fval) : Forall nonneg l -> 0 <= Pd.nansum l.
Proof.
  induction 1 as [|x r [q [-> Hq]] _ IH]; simpl; [apply Qle_refl|].
  rewrite <- (Qplus_0_r 0). now apply Qplus_le_compat.
Qed.

Lemma forecast_rows_nonneg (df : list Ledger.row) (horizon rolling_window : nat)
    (alpha : Q) (b : Forecast.row) :
  (0 < rolling_window)%nat ->
  In b (forecast_rows df horizon rolling_window alpha) ->
  nonneg (Forecast.Predicted_Inflow b) /\ nonneg (Forecast.Predicted_Outflow b).
Proof.
  intros Hw Hb. unfold forecast_rows in Hb. apply in_flat_map in Hb.
  destruct Hb as [[k g] [_ Hb]]. eapply forecast_account_nonneg; eassumption.
Qed.


(** C6, amended.  With a rolling window of at least one observation, and
    on a ledger whose amounts are all present, every row of the
    account-level forecast and every row of the bank-level forecast holds
    predictions that are numbers and are not negative, whatever the
    horizon and the smoothing weight: the blend is clamped by
    [max(pred, 0)] when the row is built. *)
Theorem forecast_nonnegative (df : list Ledger.row) (horizon rolling_window : nat)
    (alpha : Q) (af : list Forecast.row) (bf : list BankForecast.row) :
  (0 < rolling_window)%nat ->
  run_baseline_forecasting df horizon rolling_window alpha = Some (af, bf) ->
  Forall (fun r => nonneg (Forecast.Predicted_Inflow r) /\
                   nonneg (Forecast.Predicted_Outflow r)) af /\
  Forall (fun b => nonneg (BankForecast.Predicted_Inflow b) /\
                   nonneg (BankForecast.Predicted_Outflow b)) bf.
Proof.
  intros Hw Hrun. apply run_baseline_forecasting_Some in Hrun. destruct Hrun as [Haf ->].
  assert (Hacc : Forall (fun r => nonneg (Forecast.Predicted_Inflow r) /\
                                  nonneg (Forecast.Predicted_Outflow r)) af).
  { apply Forall_forall. intros b Hb. subst af.
    eapply forecast_rows_nonneg; eassumption. }
  split; [assumption|].
  apply Forall_forall. intros b Hb. unfold bank_level_forecast in Hb.
  apply in_map_iff in Hb. destruct Hb as [d [<- _]]. simpl.
  rewrite Forall_forall in Hacc.
  split; (eexists; split; [reflexivity|]); apply nansum_nonneg;
    apply Forall_forall; intros x Hx; apply in_map_iff in Hx;
    destruct Hx as [r [<- Hr]]; apply filter_In in Hr; destruct Hr as [Hr _];
    apply (Hacc r Hr).
Qed.


Lemma bank_level_forecast_dates (af : list Forecast.row) :
  map BankForecast.Date (bank_level_forecast af) = Pd.unique_Z (map Forecast.Date af).
Proof.
  unfold bank_level_forecast. rewrite map_map. simpl. apply map_id.
Qed.


(** ** The left merges of the cash-requirement engine *)

Section MergeLeft.
Context {L R : Type} (key_l : L -> string) (key_r : R -> string).

Lemma merge_left_In (left : list L) (right : list R) (l : L) (o : option R) :
  In (l, o) (Pd.merge_left key_l key_r left right) <->
  In l left /\
  match o with
  | None => ~ In (key_l l) (map key_r right)
  | Some r => In r right /\ key_r r = key_l l
  end.
Proof.
  unfold Pd.merge_left. rewrite in_flat_map. split.
  - intros [l' [Hl' H]].
    destruct (filter (fun r => String.eqb (key_r r) (key_l l')) right) as [|m ms] eqn:E.
    + destruct H as [H | []]. inversion H; subst. split; [assumption|].
      intros Hin. apply in_map_iff in Hin. destruct Hin as [r [Hk Hr]].
      assert (Hf : In r (filter (fun r => String.eqb (key_r r) (key_l l)) right)).
      { apply filter_In. split; [assumption | now apply String.eqb_eq]. }
      rewrite E in Hf. destruct Hf.
    + apply in_map_iff in H. destruct H as [r [H Hr]]. inversion H; subst.
      split; [assumption|]. rewrite <- E in Hr. apply filter_In in Hr.
      destruct Hr as [Hr Hk]. apply String.eqb_eq in Hk. auto.
  - intros [Hl H]. exists l. split; [assumption|].
    destruct (filter (fun r => String.eqb (key_r r) (key_l l)) right) as [|m ms] eqn:E.
    + destruct o as [r|]; [|now left].
      destruct H as [Hr Hk].
      assert (Hf : In r (filter (fun r => String.eqb (key_r r) (key_l l)) right)).
      { apply filter_In. split; [assumption | now apply String.eqb_eq]. }
      rewrite E in Hf. destruct Hf.
    + destruct o as [r|].
      * destruct H as [Hr Hk]. apply (in_map (fun r0 => (l, Some r0))).
        rewrite <- E. apply filter_In.
        split; [assumption | now apply String.eqb_eq].
      * exfalso. apply H. apply in_map_iff. exists m.
        assert (Hm : In m (filter (fun r => String.eqb (key_r r) (key_l l)) right))
          by (rewrite E; now left).
        apply filter_In in Hm. destruct Hm as [Hm Hk]. apply String.eqb_eq in Hk. auto.
Qed.


Lemma merge_left_attached (cell : R -> fval) (left : list L) (right : list R)
    (l : L) (o : option R) :
  In (l, o) (Pd.merge_left key_l key_r left right) ->
  attached key_r cell right (key_l l)
           match o with Some r => cell r | None => NaN end.
Proof.
  intros H. apply merge_left_In in H. destruct H as [_ H].
  destruct o as [r|]; [right | left].
  - exists r. tauto.
  - auto.
Qed.

End MergeLeft.

Lemma attached_columns {R : Type} (key : R -> string) (cell : R -> fval)
    (t : list R) (acc : string) (v : fval) :
  attached fst snd (columns key cell t) acc v -> attached key cell t acc v.
Proof.
  unfold columns. intros [[-> Hout] | [p [Hp [Hk ->]]]]; [left | right].
  - split; [reflexivity|]. now rewrite map_map in Hout.
  - apply in_map_iff in Hp. destruct Hp as [r [<- Hr]]. exists r. auto.
Qed.

Lemma merge_column_In {L R : Type} (key_l : L -> string) (key : R -> string)
    (cell : R -> fval) (left : list L) (t : list R) (l : L) (v : fval) :
  In (l, v) (merge_column key_l left (columns key cell t)) ->
  In l left /\ attached key cell t (key_l l) v.
Proof.
  unfold merge_column. intros H. apply in_map_iff in H.
  destruct H as [[l' o] [E H]]. inversion E; subst l' v. clear E.
  split; [apply merge_left_In in H; tauto|].
  apply attached_columns. exact (merge_left_attached key_l fst snd _ _ _ _ H).
Qed.


Lemma merge_inputs_In (af : list Forecast.row) (ms : list Metrics.row)
    (ss : list Structural.row) (bs : list Balances.row)
    (f : Forecast.row) (vol struct_in bal : fval) :
  In (f, vol, struct_in, bal) (merge_inputs af ms ss bs) ->
  In f af /\
  attached Metrics.Account_ID Metrics.Outflow_Volatility ms (Forecast.Account_ID f) vol /\
  attached Structural.Account_ID Structural.Structural_Inflow ss
           (Forecast.Account_ID f) struct_in /\
  attached Balances.Account_ID Balances.Balance_INR bs (Forecast.Account_ID f) bal.
Proof.
  unfold merge_inputs. intros H.
  apply merge_column_In in H. destruct H as [H A3].
  apply merge_column_In in H. destruct H as [H A2].
  apply merge_column_In in H. destruct H as [H A1].
  simpl in *. auto.
Qed.


(** The rows of the account-level requirement table. *)
Lemma requirement_rows_In (af : list Forecast.row) (ms : list Metrics.row)
    (ss : list Structural.row) (bs : list Balances.row) (s z : Q) (r : Requirement.row) :
  In r (fst (run_cash_requirement_engine af ms ss bs s z)) <->
  exists x, In x (merge_inputs af ms ss bs) /\ r = requirement_row s z x.
Proof.
  unfold run_cash_requirement_engine. simpl. rewrite in_map_iff.
  split; intros [x [H1 H2]]; exists x; auto.
Qed.

(** ** The cash-requirement engine *)

Lemma requirement_row_formulas (s z : Q) (x : Forecast.row * fval * fval * fval) :
  row_formulas s z (requirement_row s z x).
Proof. destruct x as [[[f vol] si] bal]. repeat split. Qed.

(** C1.  On every row of the engine's account-level table the buffers,
    the required cash and the funding gap are the stated functions of the
    joined and zero-filled columns; and on the ledger of fourteen identical
    rows (Inflow 1000, Outflow 800, balance 5000) the pipeline with the
    engine's defaults gives, for a horizon of 14 and of 60 days, that many
    rows, each with Safety_Buffer 0, Stress_Buffer 120, Required_Cash -80
    and Funding_Gap -5080. *)
Theorem requirement_formulas :
  (forall af ms ss bs s z,
     Forall (row_formulas s z) (fst (run_cash_requirement_engine af ms ss bs s z))) /\
  Forall
    (fun horizon =>
       exists rows,
         pipeline_requirement ledger14 balances14 horizon = Some rows /\
         length rows = horizon /\
         Forall (fun r =>
                   Requirement.Safety_Buffer r =f= Num 0 /\
                   Requirement.Stress_Buffer r =f= Num 120 /\
                   Requirement.Required_Cash r =f= Num (-80) /\
                   Requirement.Funding_Gap r =f= Num (-5080))
                rows)
    [14%nat; 60%nat].
Proof.
  split.
  - intros af ms ss bs s z. apply Forall_forall. intros r Hr.
    apply requirement_rows_In in Hr. destruct Hr as [x [_ ->]].
    apply requirement_row_formulas.
  - repeat constructor;
      (eexists; split; [vm_compute; reflexivity|]; split; [reflexivity|];
       repeat constructor; vm_compute; reflexivity).
Qed.

Lemma fillna_Num (x : fval) : exists q, Pd.fillna x (Num 0) = Num q.
Proof. destruct x; eexists; reflexivity. Qed.

(** The two-condition [np.select] on a gap that is a number. *)
Lemma select_by_sign {A : Type} (g : Q) (v1 v2 default : A) :
  (0 < g /\ ~ g <= 0 /\
   Np.select (Np.gt (Num g) (Num 0)) (Np.le (Num g) (Num 0)) v1 v2 default = v1) \/
  (g <= 0 /\ ~ 0 < g /\
   Np.select (Np.gt (Num g) (Num 0)) (Np.le (Num g) (Num 0)) v1 v2 default = v2).
Proof.
  unfold Np.select, Np.gt, Np.le.
  destruct (Qlt_le_dec 0 g) as [Hpos | Hle].
  - left. split; [assumption|]. split; [now apply Qlt_not_le|].
    now rewrite (proj2 (Qlt_bool_iff 0 g) Hpos).
  - right. split; [assumption|]. split; [now apply Qle_not_lt|].
    rewrite (proj2 (Qlt_bool_false_iff 0 g) Hle).
    now rewrite (proj2 (Qle_bool_iff g 0) Hle).
Qed.

(** [np.where(gap < 0, abs(gap), 0)] on a gap that is a number. *)
Lemma idle_cash_by_sign (g : Q) :
  let idle := Np.where_ (Np.lt (Num g) (Num 0)) (Np.abs (Num g)) (Num 0) in
  (0 < g -> idle = Num 0) /\ (g <= 0 -> idle =f= Num (- g)).
Proof.
  unfold Np.where_, Np.lt, Np.abs. split.
  - intros Hpos. rewrite (proj2 (Qlt_bool_false_iff g 0)); [reflexivity|].
    now apply Qlt_le_weak.
  - intros Hle. destruct (Qlt_bool g 0) eqn:E; simpl.
    + now apply Qabs_neg.
    + apply Qlt_bool_false_iff in E.
      assert (H : g == 0) by now apply Qle_antisym.
      rewrite H. reflexivity.
Qed.

Lemma requirement_row_gap (s z : Q) (f : Forecast.row) (vol si bal : fval) (p : Q) :
  Forecast.Predicted_Outflow f = Num p ->
  exists g, Requirement.Funding_Gap (requirement_row s z (f, vol, si, bal)) = Num g.
Proof.
  intros Hp. simpl. rewrite Hp.
  destruct (fillna_Num vol) as [v ->], (fillna_Num si) as [i ->], (fillna_Num bal) as [b ->].
  eexists. reflexivity.
Qed.

(** C2 fails as stated: the engine labels a row whose Predicted_Outflow is
    missing with the default "MONITOR"; its Funding_Gap is NaN, neither
    positive nor at most zero. *)
Lemma action_partition_counterexample :
  exists r,
    In r (fst (run_cash_requirement_engine_default forecast_missing_outflow [] [] [])) /\
    Requirement.Action r = "MONITOR"%string /\
    Np.gt (Requirement.Funding_Gap r) (Num 0) = false /\
    Np.le (Requirement.Funding_Gap r) (Num 0) = false.
Proof. eexists. split; [left; reflexivity|]. repeat split. Qed.

(** C2, amended.  On every account-level requirement row whose
    Predicted_Outflow is a number the Funding_Gap is a number and exactly
    one of two cases holds: the gap is positive, the Action is
    "RAISE_FUNDS" and Idle_Cash is 0; or the gap is at most zero, the
    Action is "INVEST_SURPLUS" and Idle_Cash is the negated gap.  A row
    whose Predicted_Outflow is NaN has a NaN gap, the Action "MONITOR" and
    Idle_Cash 0.  Every bank-level row has a numeric gap and is labelled
    "BANK_FUNDING_REQUIRED" when it is positive and
    "BANK_HAS_EXCESS_LIQUIDITY" when it is at most zero. *)
Theorem action_partition (af : list Forecast.row) (ms : list Metrics.row)
    (ss : list Structural.row) (bs : list Balances.row) (s z : Q) :
  (forall r, In r (fst (run_cash_requirement_engine af ms ss bs s z)) ->
     Np.isnan (Requirement.Predicted_Outflow r) = false ->
     exists g, Requirement.Funding_Gap r = Num g /\
       ((0 < g /\ ~ g <= 0 /\
         Requirement.Action r = "RAISE_FUNDS"%string /\
         Requirement.Idle_Cash r = Num 0) \/
        (g <= 0 /\ ~ 0 < g /\
         Requirement.Action r = "INVEST_SURPLUS"%string /\
         Requirement.Idle_Cash r =f= Num (- g)))) /\
  (forall r, In r (fst (run_cash_requirement_engine af ms ss bs s z)) ->
     Np.isnan (Requirement.Predicted_Outflow r) = true ->
     Requirement.Funding_Gap r = NaN /\
     Requirement.Action r = "MONITOR"%string /\
     Requirement.Idle_Cash r = Num 0) /\
  (forall b, In b (snd (run_cash_requirement_engine af ms ss bs s z)) ->
     exists g, BankRequirement.Funding_Gap b = Num g /\
       ((0 < g /\ ~ g <= 0 /\
         BankRequirement.Action b = "BANK_FUNDING_REQUIRED"%string) \/
        (g <= 0 /\ ~ 0 < g /\
         BankRequirement.Action b = "BANK_HAS_EXCESS_LIQUIDITY"%string))).
Proof.
  split; [|split].
  - intros r Hr Hnum. apply requirement_rows_In in Hr.
    destruct Hr as [[[[f vol] si] bal] [_ ->]].
    change (Requirement.Predicted_Outflow (requirement_row s z (f, vol, si, bal)))
      with (Forecast.Predicted_Outflow f) in Hnum.
    destruct (Forecast.Predicted_Outflow f) as [p|] eqn:Hp; [clear Hnum | discriminate].
    destruct (requirement_row_gap s z f vol si bal p Hp) as [g Hg].
    exists g. split; [assumption|].
    assert (Ha : Requirement.Action (requirement_row s z (f, vol, si, bal)) =
                 Np.select (Np.gt (Num g) (Num 0)) (Np.le (Num g) (Num 0))
                   "RAISE_FUNDS"%string "INVEST_SURPLUS"%string "MONITOR"%string).
    { rewrite <- Hg. reflexivity. }
    assert (Hi : Requirement.Idle_Cash (requirement_row s z (f, vol, si, bal)) =
                 Np.where_ (Np.lt (Num g) (Num 0)) (Np.abs (Num g)) (Num 0)).
    { rewrite <- Hg. reflexivity. }
    rewrite Ha, Hi. destruct (idle_cash_by_sign g) as [I1 I2].
    destruct (select_by_sign g "RAISE_FUNDS"%string "INVEST_SURPLUS"%string
                "MONITOR"%string) as [[H1 [H2 H3]] | [H1 [H2 H3]]]; [left | right];
      repeat split; auto.
  - intros r Hr Hnan. apply requirement_rows_In in Hr.
    destruct Hr as [[[[f vol] si] bal] [_ ->]].
    change (Requirement.Predicted_Outflow (requirement_row s z (f, vol, si, bal)))
      with (Forecast.Predicted_Outflow f) in Hnan.
    simpl. destruct (Forecast.Predicted_Outflow f); [discriminate|].
    destruct (fillna_Num vol) as [v ->]. repeat split.
  - intros b Hb. unfold run_cash_requirement_engine, bank_requirement in Hb.
    simpl in Hb. apply in_map_iff in Hb. destruct Hb as [d [<- _]].
    cbn [BankRequirement.Funding_Gap BankRequirement.Action].
    eexists. split; [reflexivity|].
    match goal with
    | |- context [Qlt_bool 0 ?g] =>
        exact (select_by_sign g "BANK_FUNDING_REQUIRED"%string
                 "BANK_HAS_EXCESS_LIQUIDITY"%string "BANK_MONITOR"%string)
    end.
Qed.






(** ** Behaviour metrics *)

Lemma account_behavior_metrics_In (df : list Ledger.row) (m : Metrics.row) :
  In m (account_behavior_metrics df) <->
  exists k, In k (map Ledger.Account_ID df) /\ m = behavior_record k (rows_of k df).
Proof.
  unfold account_behavior_metrics. rewrite in_map_iff. split.
  - intros [[k g] [<- H]]. apply groupby_account_In in H. destruct H as [H ->].
    now exists k.
  - intros [k [H ->]]. exists (k, rows_of k df). split; [reflexivity|].
    now apply groupby_account_In.
Qed.

(** The metrics of a group of one row. *)
Lemma behavior_record_single (k : string) (r0 : Ledger.row) :
  Metrics.Outflow_Volatility (behavior_record k [r0]) = NaN /\
  Metrics.Outflow_CV (behavior_record k [r0]) = NaN /\
  Metrics.Stability_Score (behavior_record k [r0]) = Num 0.
Proof.
  unfold behavior_record. cbn [Metrics.Outflow_Volatility Metrics.Outflow_CV
    Metrics.Stability_Score map Pd.std].
  assert (E : (if Np.gt (Pd.mean [Ledger.Outflow_INR r0]) (Num 0)
               then Np.div NaN (Pd.mean [Ledger.Outflow_INR r0]) else NaN) = NaN).
  { destruct (Np.gt _ _); reflexivity. }
  rewrite E. repeat split.
Qed.

Lemma length_one {A : Type} (l : list A) : length l = 1%nat -> exists x, l = [x].
Proof. destruct l as [|x [|y r]]; try discriminate. intros _. now exists x. Qed.

(** C10.  For an account with exactly one historical row the behaviour
    metrics report Outflow_Volatility NaN and Stability_Score 0; the engine
    fills that volatility with 0, so that on every requirement row of the
    account Outflow_Volatility is 0 and Safety_Buffer is 0. *)
Theorem single_row_volatility (df : list Ledger.row) (acc : string) :
  length (rows_of acc df) = 1%nat ->
  (exists m, In m (account_behavior_metrics df) /\
     Metrics.Account_ID m = acc /\
     Metrics.Outflow_Volatility m = NaN /\
     Np.isnan (Metrics.Outflow_Volatility m) = true /\
     Metrics.Stability_Score m = Num 0) /\
  (forall af ss bs s z r,
     In r (fst (run_cash_requirement_engine af (account_behavior_metrics df) ss bs s z)) ->
     Requirement.Account_ID r = acc ->
     Requirement.Outflow_Volatility r = Num 0 /\
     Requirement.Safety_Buffer r =f= Num 0).
Proof.
  intros Hone. destruct (length_one _ Hone) as [r0 Hrows].
  assert (Hacc : In acc (map Ledger.Account_ID df)).
  { assert (H : In r0 (rows_of acc df)) by (rewrite Hrows; now left).
    apply rows_of_In in H. destruct H as [H <-]. now apply in_map. }
  destruct (behavior_record_single acc r0) as [Hvol [_ Hscore]].
  split.
  - exists (behavior_record acc (rows_of acc df)). split.
    { apply account_behavior_metrics_In. now exists acc. }
    rewrite Hrows, Hvol, Hscore. repeat split.
  - intros af ss bs s z r Hr Hk. apply requirement_rows_In in Hr.
    destruct Hr as [[[[f vol] si] bal] [Hx ->]].
    apply merge_inputs_In in Hx. destruct Hx as [_ [A1 _]].
    simpl in Hk. rewrite Hk in A1.
    assert (Hnan : vol = NaN).
    { destruct A1 as [[-> _] | [m [Hm [Hkm ->]]]]; [reflexivity|].
      apply account_behavior_metrics_In in Hm. destruct Hm as [k [_ ->]].
      simpl in Hkm. subst k. rewrite Hrows. exact Hvol. }
    subst vol. simpl. split; [reflexivity|]. apply Qmult_0_l.
Qed.

Lemma sqrt_nonneg (x s : Q) : Np.sqrt x = Num s -> 0 <= s.
Proof.
  unfold Np.sqrt. destruct (Qlt_bool x 0); [discriminate|].
  intros E. inversion E. unfold Qle. simpl. rewrite Z.mul_1_r. apply Z.sqrt_nonneg.
Qed.

Lemma std_nonneg (l : list Q) (s : Q) : Pd.std l = Num s -> 0 <= s.
Proof.
  destruct l as [|x [|y r]]; try discriminate. apply sqrt_nonneg.
Qed.

Lemma gt_zero_pos (a : Q) : Np.gt (Num a) (Num 0) = true -> 0 < a.
Proof. apply Qlt_bool_iff. Qed.

Lemma Qeq_bool_pos (a : Q) : 0 < a -> Qeq_bool a 0 = false.
Proof.
  intros Ha. destruct (Qeq_bool a 0) eqn:E; [|reflexivity].
  apply Qeq_bool_iff in E. rewrite E in Ha. exfalso. apply (Qlt_irrefl 0 Ha).
Qed.

(** [1 / (1 + cv)] for a coefficient of variation that is not negative. *)
Lemma stability_in_range (cv : Q) :
  0 <= cv ->
  Np.div (Num 1) (Np.add (Num 1) (Num cv)) = Num (1 / (1 + cv)) /\
  0 < 1 / (1 + cv) /\ 1 / (1 + cv) <= 1.
Proof.
  intros Hcv. assert (Hpos : 0 < 1 + cv).
  { apply Qlt_le_trans with 1; [reflexivity|].
    rewrite <- (Qplus_0_r 1) at 1. apply Qplus_le_r. exact Hcv. }
  split; [|split].
  - simpl. now rewrite (Qeq_bool_pos _ Hpos).
  - apply Qlt_shift_div_l; [assumption|]. rewrite Qmult_0_l. reflexivity.
  - apply Qle_shift_div_r; [assumption|]. rewrite Qmult_1_l.
    rewrite <- (Qplus_0_r 1) at 1. apply Qplus_le_r. exact Hcv.
Qed.

(** The coefficient of variation and the stability score of one account. *)
Lemma behavior_record_stability (k : string) (g : list Ledger.row) :
  let m := behavior_record k g in
  (forall cv, Metrics.Outflow_CV m = Num cv ->
     0 <= cv /\
     Metrics.Stability_Score m = Num (1 / (1 + cv)) /\
     0 < 1 / (1 + cv) /\ 1 / (1 + cv) <= 1) /\
  (Metrics.Outflow_CV m = NaN -> Metrics.Stability_Score m = Num 0) /\
  (Np.gt (Metrics.Avg_Outflow m) (Num 0) = false ->
     Metrics.Outflow_CV m = NaN /\ Metrics.Stability_Score m = Num 0).
Proof.
  unfold behavior_record.
  cbn [Metrics.Outflow_CV Metrics.Stability_Score Metrics.Avg_Outflow].
  set (avg_out := Pd.mean (map Ledger.Outflow_INR g)).
  set (std_out := Pd.std (map Ledger.Outflow_INR g)).
  set (cv_out := if Np.gt avg_out (Num 0) then Np.div std_out avg_out else NaN).
  split; [|split].
  - intros cv Hcv. rewrite Hcv. cbn [Np.isnan negb].
    assert (H0 : 0 <= cv).
    { unfold cv_out in Hcv. destruct (Np.gt avg_out (Num 0)) eqn:Hgt; [|discriminate].
      destruct avg_out as [a|]; [|discriminate].
      destruct std_out as [sd|] eqn:Hsd; [|discriminate].
      apply gt_zero_pos in Hgt. simpl in Hcv. rewrite (Qeq_bool_pos _ Hgt) in Hcv.
      inversion Hcv. apply Qle_shift_div_l; [assumption|]. rewrite Qmult_0_l.
      apply (std_nonneg (map Ledger.Outflow_INR g)). exact Hsd. }
    split; [assumption|]. apply stability_in_range. assumption.
  - intros ->. reflexivity.
  - intros Hgt. unfold cv_out. rewrite Hgt. split; reflexivity.
Qed.

Lemma count_cons {A : Type} (x : A) (l : list A) : Pd.count (x :: l) == 1 + Pd.count l.
Proof.
  unfold Pd.count. cbn [length]. rewrite Nat2Z.inj_succ, <- Z.add_1_l, inject_Z_plus.
  reflexivity.
Qed.

Lemma count_nonneg {A : Type} (l : list A) : 0 <= Pd.count l.
Proof.
  unfold Pd.count. change 0 with (inject_Z 0). rewrite <- Zle_Qle. lia.
Qed.

Lemma sum_squares_nonneg (avg : Q) (l : list Q) :
  0 <= Pd.sum (map (fun x => (avg - x) * (avg - x)) l).
Proof.
  induction l as [|x r IH]; [apply Qle_refl|].
  cbn [map Pd.sum fold_right]. fold (Pd.sum (map (fun x => (avg - x) * (avg - x)) r)).
  assert (Hsq : 0 <= (avg - x) * (avg - x)).
  { destruct (Qlt_le_dec (avg - x) 0) as [Hneg | Hpos].
    - setoid_replace ((avg - x) * (avg - x)) with ((- (avg - x)) * (- (avg - x))) by ring.
      apply Qmult_le_0_compat; lra.
    - now apply Qmult_le_0_compat. }
  lra.
Qed.

Lemma sqrt_of_nonneg (x : Q) : 0 <= x -> exists s, Np.sqrt x = Num s /\ 0 <= s.
Proof.
  intros Hx. unfold Np.sqrt. rewrite (proj2 (Qlt_bool_false_iff x 0) Hx).
  eexists. split; [reflexivity|]. unfold Qle. simpl. rewrite Z.mul_1_r.
  apply Z.sqrt_nonneg.
Qed.

(** The sample standard deviation is defined exactly from two values
    on. *)
Lemma std_defined (l : list Q) :
  (2 <= length l)%nat -> exists s, Pd.std l = Num s /\ 0 <= s.
Proof.
  destruct l as [|x [|y r]]; simpl length; try lia. intros _.
  unfold Pd.std. apply sqrt_of_nonneg.
  apply Qle_shift_div_l.
  - pose proof (count_nonneg r) as Hc.
    rewrite !count_cons. lra.
  - rewrite Qmult_0_l. apply sum_squares_nonneg.
Qed.

Lemma std_undefined (l : list Q) : (length l < 2)%nat -> Pd.std l = NaN.
Proof. destruct l as [|x [|y r]]; simpl length; try lia; reflexivity. Qed.

(** The keys of the metrics table: the distinct accounts of the ledger. *)
Lemma account_behavior_metrics_keys (df : list Ledger.row) :
  map Metrics.Account_ID (account_behavior_metrics df) =
  Pd.unique_strings (map Ledger.Account_ID df).
Proof.
  unfold account_behavior_metrics. rewrite map_map.
  rewrite <- groupby_account_keys. apply map_ext. intros [k g]. reflexivity.
Qed.

(** An account with at least two rows and a positive average outflow: the
    coefficient of variation is the standard deviation over the average
    and the score is [1 / (1 + cv)]. *)
Lemma behavior_record_defined (k : string) (g : list Ledger.row) (a : Q) :
  (2 <= length g)%nat ->
  Pd.mean (map Ledger.Outflow_INR g) = Num a -> 0 < a ->
  exists s,
    Pd.std (map Ledger.Outflow_INR g) = Num s /\ 0 <= s /\ 0 <= s / a /\
    Metrics.Outflow_Volatility (behavior_record k g) = Num s /\
    Metrics.Outflow_CV (behavior_record k g) = Num (s / a) /\
    Metrics.Stability_Score (behavior_record k g) = Num (1 / (1 + s / a)).
Proof.
  intros Hlen Ha Hpos.
  destruct (std_defined (map Ledger.Outflow_INR g)) as [s [Hs Hs0]];
    [now rewrite length_map|].
  assert (Hcv0 : 0 <= s / a).
  { apply Qle_shift_div_l; [assumption | now rewrite Qmult_0_l]. }
  exists s. split; [exact Hs|]. split; [exact Hs0|]. split; [exact Hcv0|].
  assert (Hcv : (if Np.gt (Num a) (Num 0) then Np.div (Num s) (Num a) else NaN)
                = Num (s / a)).
  { unfold Np.gt, Np.div.
    now rewrite (proj2 (Qlt_bool_iff 0 a) Hpos), (Qeq_bool_pos a Hpos). }
  destruct (stability_in_range (s / a) Hcv0) as [Hscore _].
  unfold behavior_record.
  cbn [Metrics.Outflow_Volatility Metrics.Outflow_CV Metrics.Stability_Score].
  rewrite Ha, Hs, Hcv. cbn [Np.isnan negb].
  split; [reflexivity|]. split; [reflexivity | exact Hscore].
Qed.

(** An account with a single row, or whose average outflow is not
    positive: no coefficient of variation, and a score of 0. *)
Lemma behavior_record_undefined (k : string) (g : list Ledger.row) (a : Q) :
  Pd.mean (map Ledger.Outflow_INR g) = Num a ->
  (length g < 2)%nat \/ a <= 0 ->
  Metrics.Outflow_CV (behavior_record k g) = NaN /\
  Metrics.Stability_Score (behavior_record k g) = Num 0.
Proof.
  intros Ha H. unfold behavior_record.
  cbn [Metrics.Outflow_CV Metrics.Stability_Score]. rewrite Ha.
  assert (E : (if Np.gt (Num a) (Num 0)
               then Np.div (Pd.std (map Ledger.Outflow_INR g)) (Num a) else NaN) = NaN).
  { destruct H as [Hlen | Hle].
    - rewrite std_undefined by (now rewrite length_map).
      destruct (Np.gt (Num a) (Num 0)); reflexivity.
    - unfold Np.gt. now rewrite (proj2 (Qlt_bool_false_iff 0 a) Hle). }
  rewrite E. split; reflexivity.
Qed.

(** C7.  The metrics table has a row for every account of the ledger and
    for nothing else.  On the row of an account the average outflow is a
    number.  When the account has at least two rows and that average is
    positive, the outflow coefficient of variation is defined: it is the
    standard deviation over the average, a number that is not negative,
    and Stability_Score is 1 / (1 + CV), which is positive and at most 1.
    In every other case, in particular when Avg_Outflow is 0, the CV is
    NaN and the score is 0.  So on every row a CV that is a number comes
    with the score 1 / (1 + CV) in (0, 1], and a NaN CV with the score
    0. *)
Theorem stability_score_range (df : list Ledger.row) :
  (forall acc, In acc (map Metrics.Account_ID (account_behavior_metrics df)) <->
               In acc (map Ledger.Account_ID df)) /\
  Forall
    (fun m =>
       let rows := rows_of (Metrics.Account_ID m) df in
       (exists a,
          Pd.mean (map Ledger.Outflow_INR rows) = Num a /\
          Metrics.Avg_Outflow m = Num a /\
          ((2 <= length rows)%nat -> 0 < a ->
             exists s cv,
               Pd.std (map Ledger.Outflow_INR rows) = Num s /\
               Metrics.Outflow_Volatility m = Num s /\
               Metrics.Outflow_CV m = Num cv /\ cv == s / a /\ 0 <= cv /\
               Metrics.Stability_Score m = Num (1 / (1 + cv)) /\
               0 < 1 / (1 + cv) /\ 1 / (1 + cv) <= 1) /\
          ((length rows < 2)%nat \/ a <= 0 ->
             Metrics.Outflow_CV m = NaN /\ Metrics.Stability_Score m = Num 0)) /\
       (forall cv, Metrics.Outflow_CV m = Num cv ->
          0 <= cv /\
          Metrics.Stability_Score m = Num (1 / (1 + cv)) /\
          0 < 1 / (1 + cv) /\ 1 / (1 + cv) <= 1) /\
       (Metrics.Outflow_CV m = NaN -> Metrics.Stability_Score m = Num 0) /\
       (Metrics.Avg_Outflow m =f= Num 0 ->
          Metrics.Outflow_CV m = NaN /\ Metrics.Stability_Score m = Num 0))
    (account_behavior_metrics df).
Proof.
  split.
  { intros acc. rewrite account_behavior_metrics_keys. apply unique_strings_In. }
  apply Forall_forall. intros m Hm. apply account_behavior_metrics_In in Hm.
  destruct Hm as [k [Hk ->]].
  change (Metrics.Account_ID (behavior_record k (rows_of k df))) with k. cbv zeta.
  destruct (behavior_record_stability k (rows_of k df)) as [H1 [H2 H3]].
  split; [|split; [exact H1 | split; [exact H2|]]].
  - assert (Hne : rows_of k df <> []).
    { apply (groupby_account_nonempty df k). now apply groupby_account_In. }
    destruct (mean_Num (map Ledger.Outflow_INR (rows_of k df))) as [a Ha];
      [now apply map_nonempty|].
    exists a. split; [exact Ha|]. split; [exact Ha|]. split.
    + intros Hlen Hpos.
      destruct (behavior_record_defined k (rows_of k df) a Hlen Ha Hpos)
        as [s [Hs [_ [Hcv0 [Hvol [Hcv Hscore]]]]]].
      exists s, (s / a). split; [exact Hs|]. split; [exact Hvol|]. split; [exact Hcv|].
      split; [reflexivity|]. split; [exact Hcv0|]. split; [exact Hscore|].
      now destruct (stability_in_range (s / a) Hcv0) as [_ ?].
    + intros Hund. exact (behavior_record_undefined k (rows_of k df) a Ha Hund).
  - intros Hzero. apply H3.
    destruct (Metrics.Avg_Outflow (behavior_record k (rows_of k df))) as [a|];
      [|reflexivity].
    simpl in Hzero |- *. apply Qlt_bool_false_iff. rewrite Hzero. apply Qle_refl.
Qed.

(** ** Ratios and missing values *)

(** C8 fails as stated: for an account whose Avg_Outflow is 0 the metrics
    table, which is what later stages receive, holds NaN in Outflow_CV. *)
Lemma ratio_nan_counterexample :
  exists m, In m (account_behavior_metrics ledger_idle) /\
    Metrics.Avg_Outflow m =f= Num 0 /\
    Metrics.Outflow_CV m = NaN.
Proof. eexists. split; [left; reflexivity|]. split; reflexivity. Qed.

Lemma traverse_total {A B : Type} (f : A -> option B) (l : list A) :
  (forall x, In x l -> exists y, f x = Some y) ->
  exists ys, traverse f l = Some ys /\
    forall y, In y ys -> exists x, In x l /\ f x = Some y.
Proof.
  induction l as [|x r IH]; intros H.
  - exists []. split; [reflexivity | intros y []].
  - destruct (H x (or_introl eq_refl)) as [y Hy].
    destruct IH as [ys [E Hys]]. { intros x' Hx'. apply H. now right. }
    exists (y :: ys). simpl. rewrite Hy, E. split; [reflexivity|].
    intros y' [<- | Hy'].
    + exists x. auto.
    + destruct (Hys y' Hy') as [x' [Hx' E']]. exists x'. auto.
Qed.

Lemma quantile_in_range (l : list Q) (q : Q) :
  0 <= q -> q <= 1 ->
  exists v, Pd.quantile l q = Some v /\ (l <> [] -> exists x, v = Num x).
Proof.
  intros H0 H1. unfold Pd.quantile.
  rewrite (proj2 (Qle_bool_iff 0 q) H0), (proj2 (Qle_bool_iff q 1) H1). simpl.
  destruct (Pd.sort Qle_bool l) as [|x0 r] eqn:E.
  - exists NaN. split; [reflexivity|]. intros Hl. apply sort_nil_inv in E. contradiction.
  - eexists. split; [reflexivity|]. intros _. eexists. reflexivity.
Qed.

(** The row of one account in the structural table, for a quantile in
    range. *)
Lemma structural_record_ratio (q : Q) (k : string) (g : list Ledger.row) :
  0 <= q -> q <= 1 ->
  exists s, structural_record q k g = Some s /\
    Structural.Account_ID s = k /\
    (exists ratio, Structural.Structural_Ratio s = Num ratio) /\
    (Np.gt (Pd.mean (map Ledger.Inflow_INR g)) (Num 0) = false ->
     Structural.Structural_Ratio s = Num 0).
Proof.
  intros H0 H1. unfold structural_record.
  destruct (quantile_in_range (map Ledger.Inflow_INR g) q H0 H1) as [v [-> Hv]].
  eexists. split; [reflexivity|]. cbn [Structural.Account_ID Structural.Structural_Ratio].
  split; [reflexivity|]. split.
  - destruct (Np.gt (Pd.mean (map Ledger.Inflow_INR g)) (Num 0)) eqn:Hgt.
    + destruct g as [|r0 g']; [discriminate|].
      destruct Hv as [x ->]; [discriminate|].
      cbn [map Pd.mean] in Hgt |- *. apply gt_zero_pos in Hgt.
      unfold Np.div. rewrite (Qeq_bool_pos _ Hgt). eexists. reflexivity.
    + eexists. reflexivity.
  - intros ->. reflexivity.
Qed.

(** C8, amended.  The guarded ratios raise nothing, and: when Avg_Outflow
    is 0 the metrics table holds NaN in Outflow_CV and 0 in
    Stability_Score; for a quantile in [0, 1] the structural table is
    built, its Structural_Ratio is always a number and is 0 when
    Avg_Inflow is 0; the engine reads nothing of the metrics and structural
    tables but their Outflow_Volatility and Structural_Inflow columns, and
    the three columns it joins hold no NaN after the fill. *)
Theorem ratio_division_guarded (df : list Ledger.row) (quantile : Q)
    (af : list Forecast.row) (ms ms' : list Metrics.row)
    (ss ss' : list Structural.row) (bs : list Balances.row) (s z : Q) :
  Forall (fun m => Metrics.Avg_Outflow m =f= Num 0 ->
                   Metrics.Outflow_CV m = NaN /\ Metrics.Stability_Score m = Num 0)
         (account_behavior_metrics df) /\
  (0 <= quantile -> quantile <= 1 ->
   exists rows, structural_cash_estimation df quantile = Some rows /\
     Forall (fun e =>
               (exists ratio, Structural.Structural_Ratio e = Num ratio) /\
               (Pd.mean (map Ledger.Inflow_INR (rows_of (Structural.Account_ID e) df))
                  =f= Num 0 ->
                Structural.Structural_Ratio e = Num 0))
            rows) /\
  (columns Metrics.Account_ID Metrics.Outflow_Volatility ms =
   columns Metrics.Account_ID Metrics.Outflow_Volatility ms' ->
   columns Structural.Account_ID Structural.Structural_Inflow ss =
   columns Structural.Account_ID Structural.Structural_Inflow ss' ->
   run_cash_requirement_engine af ms ss bs s z =
   run_cash_requirement_engine af ms' ss' bs s z) /\
  Forall (fun r => Np.isnan (Requirement.Outflow_Volatility r) = false /\
                   Np.isnan (Requirement.Structural_Inflow r) = false /\
                   Np.isnan (Requirement.Balance_INR r) = false)
         (fst (run_cash_requirement_engine af ms ss bs s z)).
Proof.
  assert (Hzero : forall a, Num a =f= Num 0 -> Np.gt (Num a) (Num 0) = false).
  { intros a Ha. simpl in Ha |- *. apply Qlt_bool_false_iff. rewrite Ha. apply Qle_refl. }
  split; [|split; [|split]].
  - apply Forall_forall. intros m Hm. apply account_behavior_metrics_In in Hm.
    destruct Hm as [k [_ ->]]. intros Hz.
    apply (behavior_record_stability k (rows_of k df)).
    destruct (Metrics.Avg_Outflow (behavior_record k (rows_of k df))); [auto | reflexivity].
  - intros H0 H1. unfold structural_cash_estimation.
    destruct (traverse_total
                (fun '(acc, g) => structural_record quantile acc g)
                (Ledger.groupby_account df)) as [rows [E Hrows]].
    { intros [k g] _. destruct (structural_record_ratio quantile k g H0 H1) as [e [He _]].
      now exists e. }
    exists rows. split; [exact E|]. apply Forall_forall. intros e He.
    destruct (Hrows e He) as [[k g] [Hin Hrec]].
    apply groupby_account_In in Hin. destruct Hin as [_ ->].
    destruct (structural_record_ratio quantile k (rows_of k df) H0 H1)
      as [e' [He' [Hk [Hnum Hz]]]].
    rewrite Hrec in He'. inversion He'; subst e'. rewrite Hk.
    split; [exact Hnum|]. intros Hmean. apply Hz.
    destruct (Pd.mean (map Ledger.Inflow_INR (rows_of k df))); [auto | reflexivity].
  - intros Hm Hs. unfold run_cash_requirement_engine, merge_inputs.
    now rewrite Hm, Hs.
  - apply Forall_forall. intros r Hr. apply requirement_rows_In in Hr.
    destruct Hr as [[[[f vol] si] bal] [_ ->]]. simpl.
    destruct vol, si, bal; repeat split.
Qed.

(** ** Default parameters *)

(** C4 fails as stated: the default horizon of the forecaster is not 60,
    and a run with every default produces 14 rows for the one account of
    [ledger14], not 60. *)
Lemma default_horizon_counterexample :
  default_horizon <> 60%nat /\
  exists af bf,
    run_baseline_forecasting_default ledger14 = Some (af, bf) /\
    length af = 14%nat /\ length af <> 60%nat.
Proof.
  split; [discriminate|].
  eexists. eexists. split; [vm_compute; reflexivity|]. split; [reflexivity | discriminate].
Qed.

(** C4, amended.  The entry points default to a rolling window of 14, a
    smoothing weight of 0.7, a stress percentage of 0.15, a confidence
    multiplier of 1.65 and a structural quantile of 0.25, and the
    forecaster to a horizon of 14: a run with default settings produces 14
    future dates for every account of the ledger, and the dashboard, which
    passes horizon = 60, gets 60. *)
Theorem default_parameters (df : list Ledger.row) (acc : string) (m : Z) :
  last_historical_date df acc m ->
  (default_horizon = 14%nat /\ default_rolling_window = 14%nat /\
   default_alpha == 0.7 /\ default_stress_pct == 0.15 /\
   default_confidence_factor == 1.65 /\ default_quantile == 0.25) /\
  (exists af bf,
     run_baseline_forecasting_default df = Some (af, bf) /\
     length (filter (fun r => String.eqb (Forecast.Account_ID r) acc) af) = 14%nat /\
     map Forecast.Date (filter (fun r => String.eqb (Forecast.Account_ID r) acc) af) =
       Pd.date_range (m + 1) 14) /\
  (exists af bf,
     dashboard_forecast df = Some (af, bf) /\
     length (filter (fun r => String.eqb (Forecast.Account_ID r) acc) af) = 60%nat /\
     map Forecast.Date (filter (fun r => String.eqb (Forecast.Account_ID r) acc) af) =
       Pd.date_range (m + 1) 60).
Proof.
  intros Hm. split; [repeat split|]. split.
  - destruct (run_baseline_forecasting_account df default_horizon default_rolling_window
                default_alpha acc m) as [af [bf [Hrun [Hlen [Hd _]]]]];
      [unfold default_horizon; lia | exact Hm |].
    exists af, bf. auto.
  - destruct (run_baseline_forecasting_account df 60 default_rolling_window
                default_alpha acc m) as [af [bf [Hrun [Hlen [Hd _]]]]]; [lia | exact Hm |].
    exists af, bf. auto.
Qed.

(** ** Instances on concrete ledgers *)

Lemma ledger_single_last_date : last_historical_date ledger_single "ACC003" 19723.
Proof.
  split.
  - eexists. split; [left; reflexivity|]. split; reflexivity.
  - intros r [<- | []] _. simpl. lia.
Qed.

(** C3 fails as stated for a horizon of 0: the loop appends no row, the
    frame built from the empty list has no [Date] column and the bank
    [groupby] raises, so the account of the single-row ledger gets no
    table at all, not a table with zero rows for it. *)
Lemma forecast_dates_contiguous_counterexample :
  last_historical_date ledger_single "ACC003" 19723 /\
  run_baseline_forecasting ledger_single 0 default_rolling_window default_alpha = None /\
  ~ (exists af bf,
       run_baseline_forecasting ledger_single 0 default_rolling_window default_alpha
         = Some (af, bf) /\
       length (filter (fun r => String.eqb (Forecast.Account_ID r) "ACC003") af) = 0%nat).
Proof.
  split; [exact ledger_single_last_date|]. split; [reflexivity|].
  intros [af [bf [H _]]]. discriminate H.
Qed.

(** C3 on the single-row ledger: three forecast rows, dated with the three
    days after the one historical date. *)
Lemma forecast_dates_contiguous_witness :
  (0 < 3)%nat /\
  last_historical_date ledger_single "ACC003" 19723 /\
  exists af bf,
    run_baseline_forecasting ledger_single 3 default_rolling_window default_alpha
      = Some (af, bf) /\
    let rows := filter (fun r => String.eqb (Forecast.Account_ID r) "ACC003") af in
    length rows = 3%nat /\
    map Forecast.Date rows = map (fun i => (19723 + 1 + Z.of_nat i)%Z) (seq 0 3) /\
    NoDup (map (fun r => (Forecast.Date r, Forecast.Account_ID r)) af).
Proof.
  split; [lia|]. split; [exact ledger_single_last_date|].
  apply (forecast_dates_contiguous ledger_single 3 default_rolling_window default_alpha
           "ACC003" 19723); [lia | exact ledger_single_last_date].
Defined.

(** C6 fails as stated for a rolling window of 0: [tail(0).mean()] is
    NaN, so is the blend, and [max(NaN, 0)] returns its first argument;
    the run on the single-row ledger succeeds and its row holds two
    missing predictions, which are not numbers at least 0. *)
Lemma forecast_nonnegative_counterexample :
  exists af bf,
    run_baseline_forecasting ledger_single 1 0 default_alpha = Some (af, bf) /\
    exists r, In r af /\
      Forecast.Predicted_Inflow r = NaN /\ Forecast.Predicted_Outflow r = NaN /\
      ~ nonneg (Forecast.Predicted_Inflow r) /\ ~ nonneg (Forecast.Predicted_Outflow r).
Proof.
  eexists. eexists. split; [reflexivity|].
  eexists. split; [left; reflexivity|].
  split; [reflexivity|]. split; [reflexivity|].
  split; intros [q [H _]]; discriminate H.
Qed.

(** C6 on the ledger of negative flows: the run succeeds and every
    prediction is a number that is not negative. *)
Lemma forecast_nonnegative_witness :
  let af := forecast_rows ledger_negative 2 default_rolling_window default_alpha in
  let bf := bank_level_forecast af in
  (0 < default_rolling_window)%nat /\
  run_baseline_forecasting ledger_negative 2 default_rolling_window default_alpha
    = Some (af, bf) /\
  Forall (fun r => nonneg (Forecast.Predicted_Inflow r) /\
                   nonneg (Forecast.Predicted_Outflow r)) af /\
  Forall (fun b => nonneg (BankForecast.Predicted_Inflow b) /\
                   nonneg (BankForecast.Predicted_Outflow b)) bf.
Proof.
  cbv zeta. split; [unfold default_rolling_window; lia|].
  split; [vm_compute; reflexivity|].
  apply (forecast_nonnegative ledger_negative 2 default_rolling_window default_alpha);
    [unfold default_rolling_window; lia | vm_compute; reflexivity].
Defined.

(** The clamp at work: on the ledger of negative flows every prediction is
    0. *)
Example forecast_negative_clamped :
  Forall (fun r => Forecast.Predicted_Inflow r = Num 0 /\
                   Forecast.Predicted_Outflow r = Num 0)
         (forecast_rows ledger_negative 2 default_rolling_window default_alpha).
Proof. repeat constructor. Qed.


(** Two accounts that predict outflows of 100 and 200 on the same Date
    give a bank Predicted_Outflow of 300 on that Date. *)
Example bank_forecast_two_accounts :
  let af := forecast_rows ledger_two_accounts 2 default_rolling_window default_alpha in
  Forall (fun d =>
            Forall2 feq (map Forecast.Predicted_Outflow (rows_on d af)) [Num 100; Num 200])
         [19724%Z; 19725%Z] /\
  Forall2 (fun b d => BankForecast.Date b = d /\ BankForecast.Predicted_Outflow b =f= Num 300)
          (bank_level_forecast af) [19724%Z; 19725%Z].
Proof.
  cbv zeta. split; repeat constructor; vm_compute; reflexivity.
Qed.

(** C10 on the single-row ledger. *)
Lemma single_row_volatility_witness :
  length (rows_of "ACC003" ledger_single) = 1%nat /\
  (exists m, In m (account_behavior_metrics ledger_single) /\
     Metrics.Account_ID m = "ACC003"%string /\
     Metrics.Outflow_Volatility m = NaN /\
     Np.isnan (Metrics.Outflow_Volatility m) = true /\
     Metrics.Stability_Score m = Num 0) /\
  (forall af ss bs s z r,
     In r (fst (run_cash_requirement_engine af (account_behavior_metrics ledger_single)
                  ss bs s z)) ->
     Requirement.Account_ID r = "ACC003"%string ->
     Requirement.Outflow_Volatility r = Num 0 /\
     Requirement.Safety_Buffer r =f= Num 0).
Proof.
  split; [reflexivity|].
  apply (single_row_volatility ledger_single "ACC003"). reflexivity.
Defined.

(** C4 on the single-row ledger. *)
Lemma default_parameters_witness :
  last_historical_date ledger_single "ACC003" 19723 /\
  (default_horizon = 14%nat /\ default_rolling_window = 14%nat /\
   default_alpha == 0.7 /\ default_stress_pct == 0.15 /\
   default_confidence_factor == 1.65 /\ default_quantile == 0.25) /\
  (exists af bf,
     run_baseline_forecasting_default ledger_single = Some (af, bf) /\
     length (filter (fun r => String.eqb (Forecast.Account_ID r) "ACC003") af) = 14%nat /\
     map Forecast.Date
         (filter (fun r => String.eqb (Forecast.Account_ID r) "ACC003") af) =
       Pd.date_range (19723 + 1) 14) /\
  (exists af bf,
     dashboard_forecast ledger_single = Some (af, bf) /\
     length (filter (fun r => String.eqb (Forecast.Account_ID r) "ACC003") af) = 60%nat /\
     map Forecast.Date
         (filter (fun r => String.eqb (Forecast.Account_ID r) "ACC003") af) =
       Pd.date_range (19723 + 1) 60).
Proof.
  split; [exact ledger_single_last_date|].
  apply (default_parameters ledger_single "ACC003" 19723). exact ledger_single_last_date.
Defined.

(** Outflows of 100, 200 and 300: mean 200, standard deviation 100, so a
    coefficient of variation of 1/2 and a stability score of 2/3. *)
Example stability_score_two_thirds :
  Forall2 (fun m want =>
             Metrics.Outflow_Volatility m =f= Num 100 /\
             Metrics.Outflow_CV m =f= Num (1 # 2) /\
             Metrics.Stability_Score m =f= want)
          (account_behavior_metrics ledger_varying) [Num (2 # 3)].
Proof. repeat constructor; vm_compute; reflexivity. Qed.

(** A forecast row whose account is missing from all three other tables:
    the buffers are computed on zeros, Required_Cash and Funding_Gap are
    800 + 0 + 120 - 0 = 920 and the row asks to raise funds. *)
Example unknown_account_row :
  Forall (fun r =>
            Requirement.Outflow_Volatility r = Num 0 /\
            Requirement.Structural_Inflow r = Num 0 /\
            Requirement.Balance_INR r = Num 0 /\
            Requirement.Required_Cash r =f= Num 920 /\
            Requirement.Funding_Gap r =f= Num 920 /\
            Requirement.Idle_Cash r = Num 0 /\
            Requirement.Action r = "RAISE_FUNDS"%string)
         (fst (run_cash_requirement_engine_default forecast_unknown_account [] [] [])).
Proof. repeat constructor; vm_compute; reflexivity. Qed.

(** With a rolling window of no observation the rolling means are NaN and
    the clamp returns NaN: the forecaster itself then hands rows with
    missing predictions to the engine. *)
Example forecast_window_zero :
  Forall (fun r => Forecast.Predicted_Inflow r = NaN /\ Forecast.Predicted_Outflow r = NaN)
         (forecast_rows ledger_single 1 0 default_alpha) /\
  length (forecast_rows ledger_single 1 0 default_alpha) = 1%nat.
Proof. split; [repeat constructor | reflexivity]. Qed.

(** * Further properties of the three stages *)

(** ** The forecaster: failure, size and shape of the account table *)

Lemma last_historical_date_exists (df : list Ledger.row) (acc : string) :
  In acc (map Ledger.Account_ID df) -> exists m, last_historical_date df acc m.
Proof.
  intros Hacc. apply in_map_iff in Hacc. destruct Hacc as [r [Hk Hr]].
  assert (Hin : In r (rows_of acc df)) by (apply rows_of_In; auto).
  destruct (rows_of acc df) as [|r0 rest] eqn:E; [destruct Hin|].
  set (m := fold_left Z.max (map Ledger.Date rest) (Ledger.Date r0)).
  assert (Hmem : forall x, In x (r0 :: rest) <-> In x df /\ Ledger.Account_ID x = acc).
  { intros x. rewrite <- E. apply rows_of_In. }
  exists m. split.
  - pose proof (fold_left_max_In (map Ledger.Date rest) (Ledger.Date r0)) as HM.
    fold m in HM. change (In m (map Ledger.Date (r0 :: rest))) in HM.
    apply in_map_iff in HM. destruct HM as [x [Hx Hxin]].
    apply Hmem in Hxin. exists x. tauto.
  - intros x Hx Hkx.
    destruct (fold_left_max_ge (map Ledger.Date rest) (Ledger.Date r0)) as [G0 G].
    fold m in G0, G.
    assert (Hx' : In x (r0 :: rest)) by (apply Hmem; auto).
    destruct Hx' as [<- | Hx']; [exact G0 | apply G; now apply in_map].
Qed.

Lemma forecast_account_length (horizon rolling_window : nat) (alpha : Q)
    (k : string) (g : list Ledger.row) :
  g <> [] -> length (forecast_account horizon rolling_window alpha k g) = horizon.
Proof.
  intros Hg. unfold forecast_account.
  destruct (Pd.sort Ledger.leb_date g) as [|r0 rest] eqn:E.
  - apply sort_nil_inv in E. contradiction.
  - rewrite length_map. unfold Pd.date_range. now rewrite length_map, length_seq.
Qed.

Lemma nodup_length_perm (l l' : list string) :
  (forall x, In x l <-> In x l') ->
  length (nodup string_dec l) = length (nodup string_dec l').
Proof.
  intros H. apply Permutation_length. apply NoDup_Permutation; try apply NoDup_nodup.
  intros x. rewrite !nodup_In. apply H.
Qed.

Lemma groupby_account_length (df : list Ledger.row) :
  length (Ledger.groupby_account df) = length (nodup string_dec (map Ledger.Account_ID df)).
Proof.
  unfold Ledger.groupby_account, Pd.unique_strings. rewrite length_map.
  apply Permutation_length, sort_perm.
Qed.

Lemma forecast_rows_length (df : list Ledger.row) (horizon rolling_window : nat)
    (alpha : Q) :
  length (forecast_rows df horizon rolling_window alpha) =
  (horizon * length (nodup string_dec (map Ledger.Account_ID df)))%nat.
Proof.
  unfold forecast_rows.
  rewrite <- (nodup_length_perm (map Ledger.Account_ID (Pd.sort Ledger.leb_account_date df))).
  2:{ intros x. rewrite !in_map_iff.
      split; intros [r [E Hr]]; exists r; (split; [assumption|]);
        now apply (sort_In Ledger.leb_account_date df). }
  rewrite <- groupby_account_length.
  pose proof (groupby_account_nonempty (Pd.sort Ledger.leb_account_date df)) as Hne.
  induction (Ledger.groupby_account (Pd.sort Ledger.leb_account_date df))
    as [|[k g] rest IH]; simpl; [lia|].
  rewrite length_app, forecast_account_length.
  - rewrite IH; [lia|]. intros k' g' H. apply (Hne k'). now right.
  - apply (Hne k). now left.
Qed.

(** X1.  The forecaster fails (on the bank [groupby] of a frame without
    columns) exactly when the ledger is empty or the horizon is 0; in
    every other case it returns both tables. *)
Theorem forecast_fails_iff_nothing_to_forecast (df : list Ledger.row)
    (horizon rolling_window : nat) (alpha : Q) :
  run_baseline_forecasting df horizon rolling_window alpha = None <->
  df = [] \/ horizon = 0%nat.
Proof.
  rewrite run_baseline_forecasting_rows.
  pose proof (forecast_rows_length df horizon rolling_window alpha) as Hlen.
  destruct (forecast_rows df horizon rolling_window alpha) as [|b bs].
  - split; [intros _ | reflexivity]. simpl in Hlen.
    destruct horizon as [|h]; [now right | left].
    destruct df as [|r df']; [reflexivity|]. exfalso.
    assert (Hin : In (Ledger.Account_ID r)
                     (nodup string_dec (map Ledger.Account_ID (r :: df')))).
    { apply nodup_In. now left. }
    destruct (nodup string_dec (map Ledger.Account_ID (r :: df'))); [destruct Hin|].
    simpl in Hlen. lia.
  - split; [discriminate|]. intros [-> | ->]; exfalso; simpl in Hlen; lia.
Qed.

(** X2.  A successful run writes exactly [horizon] rows for each distinct
    account of the ledger, and nothing else: the account table has
    [horizon] times the number of distinct accounts rows. *)
Theorem forecast_table_size (df : list Ledger.row) (horizon rolling_window : nat)
    (alpha : Q) (af : list Forecast.row) (bf : list BankForecast.row) :
  run_baseline_forecasting df horizon rolling_window alpha = Some (af, bf) ->
  length af = (horizon * length (nodup string_dec (map Ledger.Account_ID df)))%nat.
Proof.
  intros Hrun. apply run_baseline_forecasting_Some in Hrun. destruct Hrun as [-> _].
  apply forecast_rows_length.
Qed.

Lemma date_range_In (start : Z) (periods : nat) (d : Z) :
  In d (Pd.date_range start periods) <-> (start <= d < start + Z.of_nat periods)%Z.
Proof.
  unfold Pd.date_range. rewrite in_map_iff. split.
  - intros [i [<- Hi]]. apply in_seq in Hi. lia.
  - intros H. exists (Z.to_nat (d - start)). split; [lia|]. apply in_seq. lia.
Qed.

Lemma forecast_rows_dated_after (df : list Ledger.row) (horizon rolling_window : nat)
    (alpha : Q) (b : Forecast.row) :
  In b (forecast_rows df horizon rolling_window alpha) ->
  Forecast.Model b = "BASELINE"%string /\
  exists m, last_historical_date df (Forecast.Account_ID b) m /\
    (m < Forecast.Date b <= m + Z.of_nat horizon)%Z.
Proof.
  intros Hb.
  assert (Hk : In (Forecast.Account_ID b) (map Ledger.Account_ID df)).
  { unfold forecast_rows in Hb. apply in_flat_map in Hb. destruct Hb as [[k g] [Hg Hb]].
    apply forecast_account_own in Hb. rewrite Hb.
    apply groupby_account_In in Hg. destruct Hg as [Hg _].
    apply in_map_iff in Hg. destruct Hg as [r [E Hr]].
    apply in_map_iff. exists r. split; [assumption|]. now apply sort_In in Hr. }
  split.
  - unfold forecast_rows in Hb. apply in_flat_map in Hb. destruct Hb as [[k g] [_ Hb]].
    unfold forecast_account in Hb. destruct (Pd.sort Ledger.leb_date g); [destruct Hb|].
    apply in_map_iff in Hb. destruct Hb as [d [<- _]]. reflexivity.
  - destruct (last_historical_date_exists df _ Hk) as [m Hm]. exists m.
    split; [exact Hm|].
    pose proof (forecast_rows_dates df horizon rolling_window alpha _ m Hm) as Hd.
    assert (Hin : In (Forecast.Date b) (Pd.date_range (m + 1) horizon)).
    { rewrite <- Hd. apply in_map. apply filter_In. split; [exact Hb|].
      now apply String.eqb_eq. }
    apply date_range_In in Hin. lia.
Qed.

(** X3.  Every row of the account-level forecast belongs to an account of
    the ledger, is tagged "BASELINE", and is dated strictly after every
    historical row of its account and at most [horizon] days after the
    last of them. *)
Theorem forecast_rows_after_history (df : list Ledger.row) (horizon rolling_window : nat)
    (alpha : Q) (af : list Forecast.row) (bf : list BankForecast.row) :
  run_baseline_forecasting df horizon rolling_window alpha = Some (af, bf) ->
  Forall (fun b =>
            Forecast.Model b = "BASELINE"%string /\
            exists m, last_historical_date df (Forecast.Account_ID b) m /\
              (m < Forecast.Date b <= m + Z.of_nat horizon)%Z)
         af.
Proof.
  intros Hrun. apply run_baseline_forecasting_Some in Hrun. destruct Hrun as [-> _].
  apply Forall_forall. intros b Hb.
  exact (forecast_rows_dated_after df horizon rolling_window alpha b Hb).
Qed.

(** ** The forecaster: what a prediction is made of *)




(** ** Aggregation by date *)

Section SortSorted.
Context {A : Type} (leb : A -> A -> bool).
Hypothesis leb_total : forall x y, leb x y = false -> leb y x = true.

Lemma insert_sorted (x : A) (l : list A) :
  Sorted (fun a b => leb a b = true) l ->
  Sorted (fun a b => leb a b = true) (Pd.insert leb x l).
Proof.
  induction 1 as [|y r Hr IH Hhd]; simpl.
  - repeat constructor.
  - destruct (leb x y) eqn:E.
    + constructor; [constructor; assumption | constructor; assumption].
    + constructor; [exact IH|].
      destruct r as [|z r']; simpl.
      * constructor. now apply leb_total.
      * destruct (leb x z); constructor; [now apply leb_total|].
        now inversion Hhd.
Qed.

Lemma sort_sorted (l : list A) :
  Sorted (fun a b => leb a b = true) (Pd.sort leb l).
Proof.
  induction l as [|x r IH]; simpl; [constructor | now apply insert_sorted].
Qed.

End SortSorted.

(** The keys a [groupby] on a date column iterates over are strictly
    increasing. *)
Lemma unique_Z_increasing (ks : list Z) : Sorted Z.lt (Pd.unique_Z ks).
Proof.
  pose proof (unique_Z_NoDup ks) as Hnd.
  assert (Hs : Sorted (fun a b => (a <=? b)%Z = true) (Pd.unique_Z ks)).
  { apply sort_sorted. intros x y H. apply Z.leb_gt in H. apply Z.leb_le. lia. }
  induction Hs as [|x r Hr IH Hhd]; [constructor|].
  apply NoDup_cons_iff in Hnd. destruct Hnd as [Hx Hnd].
  constructor; [now apply IH|].
  destruct Hhd as [|y r' Hxy]; constructor.
  apply Z.leb_le in Hxy.
  assert (x <> y) by (intros ->; apply Hx; now left). lia.
Qed.

Lemma nansum_cons (x : fval) (l : list fval) :
  Pd.nansum (x :: l) == numeric x + Pd.nansum l.
Proof. destruct x; simpl; [reflexivity | now rewrite Qplus_0_l]. Qed.

Lemma unique_Z_length_le (ks : list Z) : (length (Pd.unique_Z ks) <= length ks)%nat.
Proof.
  unfold Pd.unique_Z. rewrite (Permutation_length (sort_perm Z.leb _)).
  apply NoDup_incl_length; [apply NoDup_nodup|]. intros x Hx. now apply nodup_In in Hx.
Qed.

(** X6.  The bank-level forecast of a successful run has its rows in
    strictly increasing Date order, each tagged "BASELINE_BANK"; it has at
    least [horizon] rows (the dates of one account) and at most as many
    rows as the account-level table. *)
Theorem bank_forecast_dates_increasing (df : list Ledger.row)
    (horizon rolling_window : nat) (alpha : Q)
    (af : list Forecast.row) (bf : list BankForecast.row) :
  run_baseline_forecasting df horizon rolling_window alpha = Some (af, bf) ->
  Sorted Z.lt (map BankForecast.Date bf) /\
  Forall (fun b => BankForecast.Model b = "BASELINE_BANK"%string) bf /\
  (horizon <= length bf)%nat /\ (length bf <= length af)%nat.
Proof.
  intros Hrun. pose proof Hrun as Hrows.
  apply run_baseline_forecasting_Some in Hrows. destruct Hrows as [Haf ->].
  assert (Hlen : length (bank_level_forecast af) =
                 length (Pd.unique_Z (map Forecast.Date af))).
  { unfold bank_level_forecast. apply length_map. }
  split; [|split; [|split]].
  - rewrite bank_level_forecast_dates. apply unique_Z_increasing.
  - apply Forall_forall. intros b Hb. unfold bank_level_forecast in Hb.
    apply in_map_iff in Hb. destruct Hb as [d [<- _]]. reflexivity.
  - rewrite Hlen.
    assert (Hex : exists b, In b (forecast_rows df horizon rolling_window alpha)).
    { rewrite run_baseline_forecasting_rows in Hrun.
      destruct (forecast_rows df horizon rolling_window alpha) as [|b rest];
        [discriminate Hrun | exists b; now left]. }
    destruct Hex as [b Hb].
    destruct (forecast_rows_dated_after df horizon rolling_window alpha b Hb)
      as [_ [m [Hm _]]].
    pose proof (forecast_rows_dates df horizon rolling_window alpha
                  (Forecast.Account_ID b) m Hm) as Hd.
    rewrite <- Haf in Hd.
    assert (Hh : length (Pd.date_range (m + 1) horizon) = horizon).
    { unfold Pd.date_range. now rewrite length_map, length_seq. }
    rewrite <- Hh at 1. apply NoDup_incl_length; [apply date_range_NoDup|].
    intros d Hin. apply unique_Z_In. rewrite <- Hd in Hin.
    apply in_map_iff in Hin. destruct Hin as [r [<- Hr]]. apply filter_In in Hr.
    apply in_map. tauto.
  - rewrite Hlen, <- (length_map Forecast.Date af). apply unique_Z_length_le.
Qed.

(** ** The engine: row count, bank rows, monotonicity *)

Lemma filter_unique_key {R : Type} (key : R -> string) (k : string) (l : list R) :
  NoDup (map key l) ->
  (filter (fun r => String.eqb (key r) k) l = []) \/
  (exists x, filter (fun r => String.eqb (key r) k) l = [x]).
Proof.
  induction l as [|y r IH]; intros Hnd; [now left|].
  simpl in Hnd. apply NoDup_cons_iff in Hnd. destruct Hnd as [Hy Hnd].
  simpl. destruct (String.eqb_spec (key y) k) as [E | _]; [|now apply IH].
  right. exists y. f_equal. apply filter_none. intros x Hx.
  destruct (String.eqb_spec (key x) k) as [E' | _]; [|reflexivity].
  exfalso. apply Hy. rewrite E, <- E'. now apply in_map.
Qed.

(** Merging with a table that has one row per key neither drops nor
    repeats a left row. *)
Lemma merge_column_unique {L : Type} (key_l : L -> string) (left : list L)
    (right : list (string * fval)) :
  NoDup (map fst right) -> map fst (merge_column key_l left right) = left.
Proof.
  intros Hnd. unfold merge_column, Pd.merge_left. rewrite map_map.
  induction left as [|l r IH]; [reflexivity|].
  cbn [flat_map]. rewrite map_app, IH. clear IH.
  destruct (filter_unique_key fst (key_l l) right Hnd) as [-> | [x ->]]; reflexivity.
Qed.

Lemma columns_keys {R : Type} (key : R -> string) (cell : R -> fval) (t : list R) :
  map fst (columns key cell t) = map key t.
Proof. unfold columns. rewrite map_map. reflexivity. Qed.

(** X7.  When each of the three input tables has at most one row per
    account, the requirement table has exactly one row per forecast row,
    in the order of the forecast table, with the forecast's Date,
    Account_ID and predictions: the merges neither drop nor repeat a
    row. *)
Theorem requirement_rows_one_to_one (af : list Forecast.row) (ms : list Metrics.row)
    (ss : list Structural.row) (bs : list Balances.row) (s z : Q) :
  NoDup (map Metrics.Account_ID ms) ->
  NoDup (map Structural.Account_ID ss) ->
  NoDup (map Balances.Account_ID bs) ->
  map (fun r => (Requirement.Date r, Requirement.Account_ID r,
                 Requirement.Predicted_Inflow r, Requirement.Predicted_Outflow r))
      (fst (run_cash_requirement_engine af ms ss bs s z)) =
  map (fun f => (Forecast.Date f, Forecast.Account_ID f,
                 Forecast.Predicted_Inflow f, Forecast.Predicted_Outflow f)) af.
Proof.
  intros Hm Hs Hb. unfold run_cash_requirement_engine. cbn [fst]. rewrite map_map.
  assert (E : map (fun x : Forecast.row * fval * fval * fval => fst (fst (fst x)))
                  (merge_inputs af ms ss bs) = af).
  { unfold merge_inputs.
    rewrite <- (map_map fst (fun y : Forecast.row * fval * fval => fst (fst y))).
    rewrite merge_column_unique by (now rewrite columns_keys).
    rewrite <- (map_map fst (fun y : Forecast.row * fval => fst y)).
    rewrite merge_column_unique by (now rewrite columns_keys).
    rewrite merge_column_unique by (now rewrite columns_keys). reflexivity. }
  rewrite <- E at 2. rewrite map_map. apply map_ext.
  intros [[[f vol] si] bal]. reflexivity.
Qed.

Lemma requirement_row_idle (s z : Q) (x : Forecast.row * fval * fval * fval) :
  0 <= numeric (Requirement.Idle_Cash (requirement_row s z x)) /\
  - numeric (Requirement.Funding_Gap (requirement_row s z x)) <=
    numeric (Requirement.Idle_Cash (requirement_row s z x)).
Proof.
  destruct x as [[[f vol] si] bal].
  destruct (Requirement.Funding_Gap (requirement_row s z (f, vol, si, bal)))
    as [g|] eqn:Hg.
  - assert (Hi : Requirement.Idle_Cash (requirement_row s z (f, vol, si, bal)) =
                 Np.where_ (Np.lt (Num g) (Num 0)) (Np.abs (Num g)) (Num 0)).
    { rewrite <- Hg. reflexivity. }
    rewrite Hi. unfold Np.where_, Np.lt, Np.abs. cbn [numeric].
    destruct (Qlt_bool g 0) eqn:E; cbn [numeric].
    + apply Qlt_bool_iff in E. rewrite (Qabs_neg g) by now apply Qlt_le_weak.
      split; [|apply Qle_refl]. lra.
    + apply Qlt_bool_false_iff in E. split; [apply Qle_refl | lra].
  - assert (Hi : Requirement.Idle_Cash (requirement_row s z (f, vol, si, bal)) =
                 Np.where_ (Np.lt NaN (Num 0)) (Np.abs NaN) (Num 0)).
    { rewrite <- Hg. reflexivity. }
    rewrite Hi. cbn. split; [apply Qle_refl | lra].
Qed.

Lemma nansum_idle_bound {A : Type} (idle gap : A -> fval) (l : list A) :
  (forall r, In r l -> 0 <= numeric (idle r) /\ - numeric (gap r) <= numeric (idle r)) ->
  0 <= Pd.nansum (map idle l) /\ - Pd.nansum (map gap l) <= Pd.nansum (map idle l).
Proof.
  induction l as [|x r IH]; intros H.
  - simpl. split; [apply Qle_refl | lra].
  - destruct (H x (or_introl eq_refl)) as [H1 H2].
    destruct IH as [I1 I2]. { intros y Hy. apply H. now right. }
    cbn [map]. rewrite !nansum_cons. split; lra.
Qed.

(** X8.  The bank-level requirement table has its rows in strictly
    increasing Date order, and on every row Idle_Cash and Funding_Gap are
    numbers with Idle_Cash at least 0 and at least the negated
    Funding_Gap: the idle cash of some accounts is not netted against the
    shortfall of others. *)
Theorem bank_requirement_idle_cash (af : list Forecast.row) (ms : list Metrics.row)
    (ss : list Structural.row) (bs : list Balances.row) (s z : Q) :
  let bank := snd (run_cash_requirement_engine af ms ss bs s z) in
  Sorted Z.lt (map BankRequirement.Date bank) /\
  Forall (fun b => exists idle gap,
            BankRequirement.Idle_Cash b = Num idle /\
            BankRequirement.Funding_Gap b = Num gap /\
            0 <= idle /\ - gap <= idle)
         bank.
Proof.
  cbv zeta. unfold run_cash_requirement_engine. cbn [fst snd].
  set (account := map (requirement_row s z) (merge_inputs af ms ss bs)).
  unfold bank_requirement. split.
  - rewrite map_map. cbn [BankRequirement.Date]. rewrite map_id.
    apply unique_Z_increasing.
  - apply Forall_forall. intros b Hb. apply in_map_iff in Hb. destruct Hb as [d [<- _]].
    cbn [BankRequirement.Idle_Cash BankRequirement.Funding_Gap].
    eexists. eexists. split; [reflexivity|]. split; [reflexivity|].
    apply nansum_idle_bound. intros r Hr. apply filter_In in Hr. destruct Hr as [Hr _].
    unfold account in Hr. apply in_map_iff in Hr. destruct Hr as [x [<- _]].
    apply requirement_row_idle.
Qed.

(** X9.  Raising the stress percentage never lowers a funding gap: on
    forecast rows whose Predicted_Outflow is a number that is not
    negative, the two requirement tables computed with [s <= s'] have the
    same rows in the same order, each gap under [s'] is at least the gap
    under [s], and a row that asked to raise funds still does. *)
Theorem stress_monotone (af : list Forecast.row) (ms : list Metrics.row)
    (ss : list Structural.row) (bs : list Balances.row) (s s' z : Q) :
  s <= s' ->
  Forall (fun f => nonneg (Forecast.Predicted_Outflow f)) af ->
  Forall2 (fun r r' =>
             Requirement.Date r = Requirement.Date r' /\
             Requirement.Account_ID r = Requirement.Account_ID r' /\
             (exists g g', Requirement.Funding_Gap r = Num g /\
                           Requirement.Funding_Gap r' = Num g' /\ g <= g') /\
             (Requirement.Action r = "RAISE_FUNDS"%string ->
              Requirement.Action r' = "RAISE_FUNDS"%string))
          (fst (run_cash_requirement_engine af ms ss bs s z))
          (fst (run_cash_requirement_engine af ms ss bs s' z)).
Proof.
  intros Hs Haf. unfold run_cash_requirement_engine. cbn [fst].
  rewrite Forall_forall in Haf.
  assert (Hin : forall x, In x (merge_inputs af ms ss bs) ->
                          nonneg (Forecast.Predicted_Outflow (fst (fst (fst x))))).
  { intros [[[f vol] si] bal] Hx. apply merge_inputs_In in Hx. apply Haf. tauto. }
  induction (merge_inputs af ms ss bs) as [|x l IH]; cbn [map]; constructor.
  - destruct x as [[[f vol] si] bal].
    destruct (Hin _ (or_introl eq_refl)) as [p [Hp Hp0]]. cbn [fst] in Hp.
    destruct (fillna_Num vol) as [v Hv], (fillna_Num si) as [i Hi],
             (fillna_Num bal) as [b Hb].
    assert (Hgap : forall t, Requirement.Funding_Gap (requirement_row t z (f, vol, si, bal))
                             = Num (p + v * z + p * t - i - b)).
    { intros t. cbn. rewrite Hp, Hv, Hi, Hb. reflexivity. }
    assert (Hact : forall t, Requirement.Action (requirement_row t z (f, vol, si, bal)) =
                     Np.select (Np.gt (Num (p + v * z + p * t - i - b)) (Num 0))
                               (Np.le (Num (p + v * z + p * t - i - b)) (Num 0))
                               "RAISE_FUNDS"%string "INVEST_SURPLUS"%string
                               "MONITOR"%string).
    { intros t. rewrite <- Hgap. reflexivity. }
    assert (Hle : p + v * z + p * s - i - b <= p + v * z + p * s' - i - b) by nra.
    split; [reflexivity|]. split; [reflexivity|]. split.
    + eexists. eexists. rewrite !Hgap. repeat split. exact Hle.
    + rewrite !Hact.
      destruct (select_by_sign (p + v * z + p * s - i - b) "RAISE_FUNDS"%string
                  "INVEST_SURPLUS"%string "MONITOR"%string)
        as [[H1 [_ ->]] | [_ [_ ->]]]; [intros _ | discriminate].
      destruct (select_by_sign (p + v * z + p * s' - i - b) "RAISE_FUNDS"%string
                  "INVEST_SURPLUS"%string "MONITOR"%string)
        as [[_ [_ ->]] | [H2 _]]; [reflexivity|].
      exfalso. lra.
  - apply IH. intros y Hy. apply Hin. now right.
Qed.

(** ** preprocess *)

Lemma civil_from_days_range (d : Z) :
  let '(y, m, dd) := civil_from_days d in
  (1 <= m <= 12 /\ 1 <= dd <= 31)%Z.
Proof.
  unfold civil_from_days.
  set (z := (d + 719468)%Z).
  set (doe := (z mod 146097)%Z).
  assert (Hdoe : (0 <= doe < 146097)%Z) by (apply Z.mod_pos_bound; lia).
  set (yoe := ((doe - doe / 1460 + doe / 36524 - doe / 146096) / 365)%Z).
  assert (Hyoe : (0 <= yoe <= 399)%Z).
  { unfold yoe. Z.div_mod_to_equations. lia. }
  set (doy := (doe - (365 * yoe + yoe / 4 - yoe / 100))%Z).
  assert (Hdoy : (0 <= doy <= 365)%Z).
  { unfold doy, yoe. Z.div_mod_to_equations. lia. }
  set (mp := ((5 * doy + 2) / 153)%Z).
  assert (Hmp : (0 <= mp <= 11)%Z).
  { unfold mp. Z.div_mod_to_equations. lia. }
  cbv zeta. split.
  - destruct (mp <? 10)%Z eqn:E; [apply Z.ltb_lt in E | apply Z.ltb_ge in E]; lia.
  - unfold mp. Z.div_mod_to_equations. lia.
Qed.

(** The calendar date of a day number determines it: rebuilding the day
    number from year, month and day gives it back. *)
Lemma days_from_civil_from_days (d : Z) :
  let '(y, m, dd) := civil_from_days d in days_from_civil y m dd = d.
Proof.
  unfold civil_from_days, days_from_civil.
  set (z := (d + 719468)%Z).
  set (era := (z / 146097)%Z).
  set (doe := (z mod 146097)%Z).
  assert (Hz : z = (146097 * era + doe)%Z) by (apply Z.div_mod; lia).
  assert (Hdoe : (0 <= doe < 146097)%Z) by (apply Z.mod_pos_bound; lia).
  set (yoe := ((doe - doe / 1460 + doe / 36524 - doe / 146096) / 365)%Z).
  assert (Hyoe : (0 <= yoe <= 399)%Z).
  { unfold yoe. Z.div_mod_to_equations. lia. }
  set (doy := (doe - (365 * yoe + yoe / 4 - yoe / 100))%Z).
  assert (Hdoy : (0 <= doy <= 365)%Z).
  { unfold doy, yoe. Z.div_mod_to_equations. lia. }
  set (mp := ((5 * doy + 2) / 153)%Z).
  assert (Hmp : (0 <= mp <= 11)%Z).
  { unfold mp. Z.div_mod_to_equations. lia. }
  cbv zeta.
  set (month := (if (mp <? 10)%Z then (mp + 3)%Z else (mp - 9)%Z)).
  assert (Hmonth : ((mp < 10 /\ month = mp + 3) \/ (10 <= mp /\ month = mp - 9))%Z).
  { unfold month.
    destruct (mp <? 10)%Z eqn:E; [apply Z.ltb_lt in E | apply Z.ltb_ge in E]; lia. }
  assert (Hmp' : (if (month >? 2)%Z then (month - 3)%Z else (month + 9)%Z) = mp).
  { destruct (month >? 2)%Z eqn:E;
      [apply Z.gtb_lt in E | rewrite Z.gtb_ltb in E; apply Z.ltb_ge in E]; lia. }
  rewrite Hmp'.
  set (y := (yoe + era * 400 + (if (month <=? 2)%Z then 1 else 0))%Z).
  assert (Hy' : (if (month <=? 2)%Z then (y - 1)%Z else y) = (yoe + era * 400)%Z).
  { unfold y. destruct (month <=? 2)%Z; lia. }
  rewrite Hy'.
  assert (E1 : ((yoe + era * 400) / 400 = era)%Z).
  { symmetry. apply (Z.div_unique _ _ _ yoe); lia. }
  assert (E2 : ((yoe + era * 400) mod 400 = yoe)%Z).
  { symmetry. apply (Z.mod_unique _ _ era); lia. }
  rewrite E1, E2.
  assert (E3 : ((153 * mp + 2) / 5 + (doy - (153 * mp + 2) / 5 + 1) - 1 = doy)%Z) by lia.
  rewrite E3. unfold doy at 1. lia.
Qed.

(** 1970-01-01, 2000-02-29, 2024-01-01 (a Monday), 2024-02-29 and
    2024-12-31. *)
Example civil_from_days_samples :
  map civil_from_days [0; 11016; 19723; 19782; 20088]%Z =
    [(1970, 1, 1); (2000, 2, 29); (2024, 1, 1); (2024, 2, 29); (2024, 12, 31)]%Z /\
  Pd.dayofweek 19723 = 0%Z.
Proof. split; reflexivity. Qed.

Lemma day_of_month_range (d : Z) : (1 <= day_of_month d <= 31)%Z.
Proof.
  unfold day_of_month. pose proof (civil_from_days_range d) as H.
  destruct (civil_from_days d) as [[y m] dd]. simpl. tauto.
Qed.

Lemma leb_account_date_total (x y : Ledger.row) :
  Ledger.leb_account_date x y = false -> Ledger.leb_account_date y x = true.
Proof.
  unfold Ledger.leb_account_date. rewrite (String.eqb_sym (Ledger.Account_ID y)).
  destruct (String.eqb (Ledger.Account_ID x) (Ledger.Account_ID y)).
  - intros H. apply Z.leb_gt in H. apply Z.leb_le. lia.
  - intros H. destruct (String.leb_total (Ledger.Account_ID x) (Ledger.Account_ID y)); congruence.
Qed.

Lemma leb_account_date_le (x y : Ledger.row) :
  Ledger.leb_account_date x y = true ->
  account_date_le (preprocess_row x) (preprocess_row y).
Proof.
  unfold Ledger.leb_account_date, account_date_le. simpl.
  destruct (String.eqb_spec (Ledger.Account_ID x) (Ledger.Account_ID y)) as [E | Hne].
  - intros H. right. split; [assumption | now apply Z.leb_le].
  - intros H. left. unfold String.leb in H. unfold String.ltb.
    destruct (String.compare (Ledger.Account_ID x) (Ledger.Account_ID y)) eqn:C;
      try reflexivity; try discriminate.
    apply String.compare_eq_iff in C. contradiction.
Qed.

Lemma Sorted_map {A B : Type} (R : A -> A -> Prop) (S : B -> B -> Prop) (f : A -> B)
    (l : list A) :
  (forall x y, R x y -> S (f x) (f y)) -> Sorted R l -> Sorted S (map f l).
Proof.
  intros H. induction 1 as [|x r Hr IH Hhd]; simpl; constructor; [assumption|].
  destruct Hhd; simpl; constructor. auto.
Qed.

(** X10.  [preprocess] keeps exactly the rows of the ledger, reordered by
    account and then by date, and on every row Net_Cash is Inflow minus
    Outflow, DayOfWeek lies in 0..6 (Monday is 0), DayOfMonth in 1..31, and
    Is_Month_End is 1 from the 25th on and 0 before. *)
Theorem preprocess_columns_spec (df : list Ledger.row) :
  Permutation (map Prep.ledger_row (preprocess_columns df)) df /\
  Sorted account_date_le (preprocess_columns df) /\
  Forall (fun r =>
            Prep.Net_Cash r = Prep.Inflow_INR r - Prep.Outflow_INR r /\
            (0 <= Prep.DayOfWeek r <= 6)%Z /\
            (1 <= Prep.DayOfMonth r <= 31)%Z /\
            ((Prep.Is_Month_End r = 1 /\ 25 <= Prep.DayOfMonth r)%Z \/
             (Prep.Is_Month_End r = 0 /\ Prep.DayOfMonth r < 25)%Z))
         (preprocess_columns df).
Proof.
  unfold preprocess_columns. split; [|split].
  - rewrite map_map.
    rewrite (map_ext (fun x => Prep.ledger_row (preprocess_row x)) (fun x => x)).
    + rewrite map_id. apply sort_perm.
    + intros [d a i o b]. reflexivity.
  - apply (Sorted_map (fun a b => Ledger.leb_account_date a b = true)).
    + apply leb_account_date_le.
    + apply sort_sorted, leb_account_date_total.
  - apply Forall_forall. intros r Hr. apply in_map_iff in Hr. destruct Hr as [x [<- _]].
    unfold preprocess_row.
    cbn [Prep.Net_Cash Prep.Inflow_INR Prep.Outflow_INR Prep.DayOfWeek Prep.DayOfMonth
         Prep.Is_Month_End].
    split; [reflexivity|]. split.
    + unfold Pd.dayofweek. pose proof (Z.mod_pos_bound (Ledger.Date x + 3) 7). lia.
    + split; [apply day_of_month_range|].
      destruct (25 <=? day_of_month (Ledger.Date x))%Z eqn:E;
        [apply Z.leb_le in E; left | apply Z.leb_gt in E; right];
        (split; [reflexivity | lia]).
Qed.

(** ** Behaviour metrics and structural estimates, row by row *)

(** X11.  The metrics table has exactly one row per distinct account of
    the ledger.  On each row the two averages are numbers, Net_Flow is
    their difference, and Outflow_Volatility is missing exactly when the
    account has a single row; otherwise it is a number that is not
    negative. *)
Theorem metrics_one_row_per_account (df : list Ledger.row) :
  NoDup (map Metrics.Account_ID (account_behavior_metrics df)) /\
  (forall k, In k (map Metrics.Account_ID (account_behavior_metrics df)) <->
             In k (map Ledger.Account_ID df)) /\
  Forall (fun m =>
            (exists a b, Metrics.Avg_Inflow m = Num a /\ Metrics.Avg_Outflow m = Num b /\
                         Metrics.Net_Flow m = Num (a - b)) /\
            (Metrics.Outflow_Volatility m = NaN <->
             length (rows_of (Metrics.Account_ID m) df) = 1%nat) /\
            (forall v, Metrics.Outflow_Volatility m = Num v -> 0 <= v))
         (account_behavior_metrics df).
Proof.
  assert (Hkeys : map Metrics.Account_ID (account_behavior_metrics df) =
                  Pd.unique_strings (map Ledger.Account_ID df)).
  { unfold account_behavior_metrics. rewrite map_map.
    rewrite <- groupby_account_keys. apply map_ext. intros [k g]. reflexivity. }
  split; [|split].
  - rewrite Hkeys. apply unique_strings_NoDup.
  - intros k. rewrite Hkeys. apply unique_strings_In.
  - apply Forall_forall. intros m Hm. apply account_behavior_metrics_In in Hm.
    destruct Hm as [k [Hk ->]].
    assert (Hne : rows_of k df <> []).
    { apply (groupby_account_nonempty df k). now apply groupby_account_In. }
    unfold behavior_record.
    cbn [Metrics.Avg_Inflow Metrics.Avg_Outflow Metrics.Net_Flow
         Metrics.Outflow_Volatility Metrics.Account_ID].
    destruct (mean_Num (map Ledger.Inflow_INR (rows_of k df))) as [a Ha];
      [now apply map_nonempty|].
    destruct (mean_Num (map Ledger.Outflow_INR (rows_of k df))) as [b Hb];
      [now apply map_nonempty|].
    split; [exists a, b; rewrite Ha, Hb; repeat split|].
    destruct (Nat.le_gt_cases 2 (length (rows_of k df))) as [H2 | H1].
    + destruct (std_defined (map Ledger.Outflow_INR (rows_of k df))) as [s [Hs Hs0]];
        [now rewrite length_map|].
      rewrite Hs. split.
      * split; [discriminate | lia].
      * intros v E. inversion E. subst v. exact Hs0.
    + rewrite std_undefined by (now rewrite length_map). split.
      * split; [intros _ | reflexivity].
        destruct (rows_of k df) as [|r0 [|r1 r]]; simpl in *; try lia. congruence.
      * discriminate.
Qed.

Lemma nth_In_default {A : Type} (n : nat) (l : list A) (d : A) :
  In d l -> In (nth n l d) l.
Proof.
  intros Hd. destruct (nth_in_or_default n l d) as [H | ->]; assumption.
Qed.

(** An interpolated quantile lies between any bounds of the values. *)
Lemma quantile_bounds (l : list Q) (q lo hi : Q) :
  0 <= q -> q <= 1 -> l <> [] ->
  (forall x, In x l -> lo <= x /\ x <= hi) ->
  exists v, Pd.quantile l q = Some (Num v) /\ lo <= v /\ v <= hi.
Proof.
  intros H0 H1 Hl Hb. unfold Pd.quantile.
  rewrite (proj2 (Qle_bool_iff 0 q) H0), (proj2 (Qle_bool_iff q 1) H1). cbn [andb negb].
  destruct (Pd.sort Qle_bool l) as [|x0 r] eqn:E.
  { apply sort_nil_inv in E. contradiction. }
  assert (Hs : forall x, In x (x0 :: r) -> lo <= x /\ x <= hi).
  { intros x Hx. apply Hb. rewrite <- E in Hx. now apply sort_In in Hx. }
  set (h := inject_Z (Z.of_nat (length (x0 :: r) - 1)) * q).
  set (a := nth (Z.to_nat (Qfloor h)) (x0 :: r) x0).
  set (b := nth (S (Z.to_nat (Qfloor h))) (x0 :: r) a).
  assert (Ha : In a (x0 :: r)) by (apply nth_In_default; now left).
  assert (Hbn : In b (x0 :: r)) by (apply nth_In_default; exact Ha).
  destruct (Hs a Ha) as [A1 A2]. destruct (Hs b Hbn) as [B1 B2].
  pose proof (Qfloor_le h) as G0. pose proof (Qlt_floor h) as G1.
  rewrite inject_Z_plus in G1.
  eexists. split; [reflexivity|].
  set (g := h - inject_Z (Qfloor h)).
  assert (Hg0 : 0 <= g) by (unfold g; lra).
  assert (Hg1 : g <= 1) by (unfold g; change (inject_Z 1) with 1 in G1; lra).
  split; nra.
Qed.

Lemma groupby_account_nil_iff (df : list Ledger.row) :
  Ledger.groupby_account df = [] <-> df = [].
Proof.
  split; [|intros ->; reflexivity].
  intros H. destruct df as [|r df']; [reflexivity|]. exfalso.
  assert (Hin : In (Ledger.Account_ID r, rows_of (Ledger.Account_ID r) (r :: df'))
                   (Ledger.groupby_account (r :: df'))).
  { apply groupby_account_In. split; [now left | reflexivity]. }
  rewrite H in Hin. destruct Hin.
Qed.

(** X13.  [structural_cash_estimation] raises (the [ValueError] of
    [quantile]) exactly when the quantile is outside [0, 1] and the ledger
    has at least one row; on an empty ledger it returns an empty table
    whatever the quantile. *)
Theorem structural_fails_iff_bad_quantile (df : list Ledger.row) (quantile : Q) :
  structural_cash_estimation df quantile = None <->
  df <> [] /\ ~ (0 <= quantile /\ quantile <= 1).
Proof.
  unfold structural_cash_estimation. split.
  - intros Hnone. split.
    + intros ->. discriminate.
    + intros [H0 H1].
      assert (Hok : forall x, In x (Ledger.groupby_account df) ->
                      exists y, (fun '(acc, g) => structural_record quantile acc g) x
                                = Some y).
      { intros [k g] _.
        destruct (structural_record_ratio quantile k g H0 H1) as [e [He _]]. now exists e. }
      destruct (traverse_total _ _ Hok) as [rows [E _]]. congruence.
  - intros [Hdf Hq].
    destruct (Ledger.groupby_account df) as [|[k g] rest] eqn:E.
    { apply groupby_account_nil_iff in E. contradiction. }
    cbn [traverse]. unfold structural_record, Pd.quantile.
    assert (Hb : negb (Qle_bool 0 quantile && Qle_bool quantile 1) = true).
    { apply negb_true_iff. apply andb_false_iff.
      destruct (Qle_bool 0 quantile) eqn:E0; [|now left].
      destruct (Qle_bool quantile 1) eqn:E1; [|now right].
      exfalso. apply Hq. split; now apply Qle_bool_iff. }
    rewrite Hb. reflexivity.
Qed.

Lemma structural_record_spec (q : Q) (k : string) (g : list Ledger.row) :
  0 <= q -> q <= 1 -> g <> [] ->
  exists e si v a,
    structural_record q k g = Some e /\
    Structural.Account_ID e = k /\
    Structural.Structural_Inflow e = Num si /\
    Structural.Volatile_Inflow e = Num v /\
    Pd.mean (map Ledger.Inflow_INR g) = Num a /\
    0 <= v /\ (a <= si -> v == 0) /\ (si <= a -> v == a - si) /\
    (forall lo hi,
       (forall x, In x (map Ledger.Inflow_INR g) -> lo <= x /\ x <= hi) ->
       lo <= si /\ si <= hi).
Proof.
  intros H0 H1 Hg.
  assert (Hl : map Ledger.Inflow_INR g <> []) by now apply map_nonempty.
  destruct (quantile_in_range (map Ledger.Inflow_INR g) q H0 H1) as [x [Hq Hx]].
  destruct (Hx Hl) as [si ->].
  destruct (mean_Num _ Hl) as [a Ha].
  unfold structural_record. rewrite Hq, Ha.
  cbn [Np.sub]. destruct (max_zero_nonneg (a - si)) as [v [Hv Hv0]].
  eexists. exists si, v, a. split; [reflexivity|].
  cbn [Structural.Account_ID Structural.Structural_Inflow Structural.Volatile_Inflow].
  split; [reflexivity|]. split; [reflexivity|]. split; [exact Hv|].
  split; [reflexivity|]. split; [exact Hv0|].
  assert (Hmax : (a - si <= 0 -> v == 0) /\ (0 <= a - si -> v == a - si)).
  { unfold Np.max, Np.gt in Hv. destruct (Qlt_bool (a - si) 0) eqn:E.
    - apply Qlt_bool_iff in E. inversion Hv. split; intros; [reflexivity | lra].
    - apply Qlt_bool_false_iff in E. inversion Hv. split; intros; [lra | reflexivity]. }
  destruct Hmax as [M1 M2]. split; [intros; apply M1; lra|]. split.
  - intros Hle. apply M2. lra.
  - intros lo hi Hb.
    destruct (quantile_bounds (map Ledger.Inflow_INR g) q lo hi H0 H1 Hl Hb)
      as [si' [Hq' Hb']].
    rewrite Hq in Hq'. inversion Hq'. subst si'. exact Hb'.
Qed.

Lemma traverse_keys {A B K : Type} (f : A -> option B) (key_a : A -> K) (key_b : B -> K)
    (l : list A) (ys : list B) :
  (forall x y, f x = Some y -> key_b y = key_a x) ->
  traverse f l = Some ys -> map key_b ys = map key_a l.
Proof.
  intros Hk. revert ys. induction l as [|x r IH]; intros ys H.
  - inversion H. reflexivity.
  - cbn [traverse] in H. destruct (f x) as [y|] eqn:Ey; [|discriminate].
    destruct (traverse f r) as [ys'|]; [|discriminate].
    inversion H. subst ys. cbn [map]. f_equal; [now apply Hk | now apply IH].
Qed.

(** X14.  For a quantile in [0, 1] the structural table has one row per
    account, in key order, and on each row: Structural_Inflow is a number
    that lies between any bounds of the account's historical inflows, and
    Volatile_Inflow is the account's average inflow minus the structural
    part where that is positive and 0 otherwise, hence never negative. *)
Theorem structural_estimate_bounds (df : list Ledger.row) (quantile : Q) :
  0 <= quantile -> quantile <= 1 ->
  exists rows,
    structural_cash_estimation df quantile = Some rows /\
    map Structural.Account_ID rows = Pd.unique_strings (map Ledger.Account_ID df) /\
    Forall (fun e =>
              exists si v a,
                Structural.Structural_Inflow e = Num si /\
                Structural.Volatile_Inflow e = Num v /\
                Pd.mean (map Ledger.Inflow_INR (rows_of (Structural.Account_ID e) df))
                  = Num a /\
                0 <= v /\ (a <= si -> v == 0) /\ (si <= a -> v == a - si) /\
                (forall lo hi,
                   (forall r, In r df -> Ledger.Account_ID r = Structural.Account_ID e ->
                              lo <= Ledger.Inflow_INR r /\ Ledger.Inflow_INR r <= hi) ->
                   lo <= si /\ si <= hi))
           rows.
Proof.
  intros H0 H1. unfold structural_cash_estimation.
  assert (Hok : forall x, In x (Ledger.groupby_account df) ->
                  exists y, (fun '(acc, g) => structural_record quantile acc g) x = Some y).
  { intros [k g] _.
    destruct (structural_record_ratio quantile k g H0 H1) as [e [He _]]. now exists e. }
  destruct (traverse_total _ _ Hok) as [rows [E Hrows]].
  exists rows. split; [exact E|]. split.
  - rewrite <- groupby_account_keys.
    apply (traverse_keys _ fst Structural.Account_ID _ _) with (2 := E).
    intros [k g] y Hy. cbn [fst].
    destruct (structural_record_ratio quantile k g H0 H1) as [e [He [Hk _]]].
    rewrite Hy in He. inversion He. now subst.
  - apply Forall_forall. intros e He. destruct (Hrows e He) as [[k g] [Hin Hrec]].
    pose proof (groupby_account_nonempty df k g Hin) as Hne.
    apply groupby_account_In in Hin. destruct Hin as [_ ->].
    destruct (structural_record_spec quantile k (rows_of k df) H0 H1 Hne)
      as [e' [si [v [a [He' [Hk [Hsi [Hv [Ha [Hv0 [Hzero [Hdiff Hb]]]]]]]]]]]].
    rewrite Hrec in He'. inversion He'. subst e'. rewrite Hk.
    exists si, v, a. repeat split; try assumption.
    + apply (Hb lo hi). intros x Hx. apply in_map_iff in Hx. destruct Hx as [r [<- Hr]].
      apply rows_of_In in Hr. destruct Hr. now apply H.
    + apply (Hb lo hi). intros x Hx. apply in_map_iff in Hx. destruct Hx as [r [<- Hr]].
      apply rows_of_In in Hr. destruct Hr. now apply H.
Qed.

(** ** The bank tables and the seasonality tables *)

Lemma nodup_Z_length_perm (l l' : list Z) :
  Permutation l l' -> length (nodup Z.eq_dec l) = length (nodup Z.eq_dec l').
Proof.
  intros H. apply Permutation_length. apply NoDup_Permutation; try apply NoDup_nodup.
  intros x. rewrite !nodup_In. split; apply Permutation_in; [|apply Permutation_sym]; exact H.
Qed.

Lemma unique_Z_length (ks : list Z) :
  length (Pd.unique_Z ks) = length (nodup Z.eq_dec ks).
Proof. unfold Pd.unique_Z. apply Permutation_length, sort_perm. Qed.

Lemma filter_map_comm {A B : Type} (f : A -> B) (p : B -> bool) (l : list A) :
  filter p (map f l) = map f (filter (fun x => p (f x)) l).
Proof.
  induction l as [|x r IH]; [reflexivity|]. cbn [map filter].
  destruct (p (f x)); cbn [map]; now rewrite IH.
Qed.

(** X15.  The bank roll-up of the preprocessed ledger has one row per date
    of the ledger, in increasing order.  The row of a date holds the sums,
    over the rows of that date in account-then-date order, of their
    inflows, of their outflows and of their differences.  The three
    averages of the summary are numbers exactly when the ledger has a row,
    and the bank-wide Outflow_Volatility is missing exactly when the
    ledger has fewer than two distinct dates, a number that is not
    negative otherwise. *)
Theorem bank_level_summary_spec (df : list Ledger.row) :
  let bank_daily := fst (bank_level_summary (preprocess_columns df)) in
  let summary := snd (bank_level_summary (preprocess_columns df)) in
  Sorted Z.lt (map BankDaily.Date bank_daily) /\
  (forall d, In d (map BankDaily.Date bank_daily) <-> In d (map Ledger.Date df)) /\
  Forall (fun b =>
            let rows := filter (fun r => Z.eqb (Ledger.Date r) (BankDaily.Date b))
                               (preprocess df) in
            rows <> [] /\
            BankDaily.Inflow_INR b = Pd.sum (map Ledger.Inflow_INR rows) /\
            BankDaily.Outflow_INR b = Pd.sum (map Ledger.Outflow_INR rows) /\
            BankDaily.Net_Cash b =
              Pd.sum (map (fun r => Ledger.Inflow_INR r - Ledger.Outflow_INR r) rows))
         bank_daily /\
  (df <> [] ->
   exists i o n, BankSummary.Avg_Daily_Inflow summary = Num i /\
                 BankSummary.Avg_Daily_Outflow summary = Num o /\
                 BankSummary.Net_Position summary = Num n) /\
  (df = [] ->
   bank_daily = [] /\
   BankSummary.Avg_Daily_Inflow summary = NaN /\
   BankSummary.Avg_Daily_Outflow summary = NaN /\
   BankSummary.Net_Position summary = NaN) /\
  (BankSummary.Outflow_Volatility summary = NaN <->
   (length (nodup Z.eq_dec (map Ledger.Date df)) < 2)%nat) /\
  (forall v, BankSummary.Outflow_Volatility summary = Num v -> 0 <= v).
Proof.
  cbv zeta. unfold bank_level_summary. cbn [fst snd BankSummary.Net_Position
    BankSummary.Avg_Daily_Inflow BankSummary.Avg_Daily_Outflow
    BankSummary.Outflow_Volatility].
  set (pf := preprocess_columns df).
  set (bank_daily := map _ (Pd.unique_Z (map Prep.Date pf))).
  assert (Hdates : map Prep.Date pf = map Ledger.Date (Pd.sort Ledger.leb_account_date df)).
  { unfold pf, preprocess_columns. rewrite map_map. reflexivity. }
  assert (Hbd : map BankDaily.Date bank_daily = Pd.unique_Z (map Prep.Date pf)).
  { unfold bank_daily. rewrite map_map. apply map_id. }
  assert (Hrows : forall d,
             filter (fun r => Z.eqb (Prep.Date r) d) pf =
             map preprocess_row
                 (filter (fun r => Z.eqb (Ledger.Date r) d) (preprocess df))).
  { intros d. unfold pf, preprocess_columns, preprocess.
    apply (filter_map_comm preprocess_row (fun r => Z.eqb (Prep.Date r) d)). }
  assert (Hne : df <> [] -> bank_daily <> []).
  { intros Hdf Hnil. destruct df as [|r df']; [congruence|].
    assert (Hin : In (Ledger.Date r) (map BankDaily.Date bank_daily)).
    { rewrite Hbd, unique_Z_In, Hdates. apply in_map.
      apply (sort_In Ledger.leb_account_date). now left. }
    rewrite Hnil in Hin. destruct Hin. }
  split; [|split; [|split; [|split; [|split; [|split]]]]].
  - rewrite Hbd. apply unique_Z_increasing.
  - intros d. rewrite Hbd, unique_Z_In, Hdates. rewrite !in_map_iff.
    split; intros [r [E Hr]]; exists r; (split; [assumption|]);
      now apply (sort_In Ledger.leb_account_date df).
  - apply Forall_forall. intros b Hb. unfold bank_daily in Hb. apply in_map_iff in Hb.
    destruct Hb as [d [<- Hd]].
    cbn [BankDaily.Date BankDaily.Net_Cash BankDaily.Inflow_INR BankDaily.Outflow_INR].
    rewrite Hrows, !map_map. cbn [preprocess_row Prep.Inflow_INR Prep.Outflow_INR
      Prep.Net_Cash]. split; [|repeat split].
    rewrite unique_Z_In, Hdates in Hd. apply in_map_iff in Hd. destruct Hd as [r [E Hr]].
    intros Hnil.
    assert (Hin : In r (filter (fun r0 => Z.eqb (Ledger.Date r0) d) (preprocess df))).
    { apply filter_In. split; [exact Hr | now apply Z.eqb_eq]. }
    rewrite Hnil in Hin. destruct Hin.
  - intros Hdf. specialize (Hne Hdf).
    destruct bank_daily as [|b0 rest]; [congruence|].
    eexists. eexists. eexists. repeat split.
  - intros ->. repeat split.
  - assert (Hlen : length (map BankDaily.Outflow_INR bank_daily) =
                   length (nodup Z.eq_dec (map Ledger.Date df))).
    { rewrite length_map, <- (length_map BankDaily.Date), Hbd, unique_Z_length, Hdates.
      apply nodup_Z_length_perm, Permutation_map, sort_perm. }
    destruct (Nat.le_gt_cases 2 (length (map BankDaily.Outflow_INR bank_daily)))
      as [H2 | H1].
    + destruct (std_defined _ H2) as [s [-> _]]. split; [discriminate | lia].
    + rewrite (std_undefined _ H1). split; [lia | reflexivity].
  - intros v Hv. exact (std_nonneg _ _ Hv).
Qed.

Lemma increasing_length (l : list Z) (lo hi : Z) :
  Sorted Z.lt l -> (forall x, In x l -> (lo <= x < hi)%Z) ->
  (Z.of_nat (length l) <= Z.max 0 (hi - lo))%Z.
Proof.
  intros Hs. apply Sorted_StronglySorted in Hs; [|intros x y z; apply Z.lt_trans].
  revert lo. induction Hs as [|x r Hr IH Hall]; intros lo Hb; [simpl; lia|].
  assert (Hx : (lo <= x < hi)%Z) by (apply Hb; now left).
  specialize (IH (x + 1)%Z). cbn [length]. rewrite Nat2Z.inj_succ.
  assert (Hr' : (Z.of_nat (length r) <= Z.max 0 (hi - (x + 1)))%Z).
  { apply IH. intros y Hy. rewrite Forall_forall in Hall.
    pose proof (Hall y Hy). pose proof (Hb y (or_intror Hy)). lia. }
  lia.
Qed.

Lemma groupby_mean_spec (key : Prep.row -> Z) (df : list Prep.row) :
  map Seasonal.Key (groupby_mean key df) = Pd.unique_Z (map key df) /\
  Forall (fun e => exists a b, Seasonal.Inflow_INR e = Num a /\ Seasonal.Outflow_INR e = Num b)
         (groupby_mean key df).
Proof.
  unfold groupby_mean. split.
  - rewrite map_map. apply map_id.
  - apply Forall_forall. intros e He. apply in_map_iff in He. destruct He as [k [<- Hk]].
    rewrite unique_Z_In in Hk. apply in_map_iff in Hk. destruct Hk as [r [Hr Hin]].
    assert (Hne : filter (fun r0 => (key r0 =? k)%Z) df <> []).
    { intros Hnil. assert (H : In r (filter (fun r0 => (key r0 =? k)%Z) df)).
      { apply filter_In. split; [assumption | now apply Z.eqb_eq]. }
      rewrite Hnil in H. destruct H. }
    cbn [Seasonal.Inflow_INR Seasonal.Outflow_INR].
    destruct (mean_Num (map Prep.Inflow_INR (filter (fun r0 => (key r0 =? k)%Z) df)))
      as [a Ha]; [now apply map_nonempty|].
    destruct (mean_Num (map Prep.Outflow_INR (filter (fun r0 => (key r0 =? k)%Z) df)))
      as [b Hb]; [now apply map_nonempty|].
    exists a, b. auto.
Qed.

(** X16.  The seasonality tables of the preprocessed ledger: the
    day-of-week table has one row for each weekday that occurs in the
    ledger and none for the others (so at most seven, for keys 0..6 in
    increasing order), the month-end table has at most two rows, for the
    keys 0 and 1, and no mean in either table is missing. *)
Theorem seasonality_tables_spec (df : list Ledger.row) :
  let dow := fst (seasonality_analysis (preprocess_columns df)) in
  let month_end := snd (seasonality_analysis (preprocess_columns df)) in
  Sorted Z.lt (map Seasonal.Key dow) /\
  (forall w, In w (map Seasonal.Key dow) <->
             exists r, In r df /\ Pd.dayofweek (Ledger.Date r) = w) /\
  (length dow <= 7)%nat /\
  Sorted Z.lt (map Seasonal.Key month_end) /\
  (forall k, In k (map Seasonal.Key month_end) <->
             exists r, In r df /\
               ((k = 1 /\ 25 <= day_of_month (Ledger.Date r))%Z \/
                (k = 0 /\ day_of_month (Ledger.Date r) < 25)%Z)) /\
  (length month_end <= 2)%nat /\
  Forall (fun e => exists a b, Seasonal.Inflow_INR e = Num a /\ Seasonal.Outflow_INR e = Num b)
         (dow ++ month_end).
Proof.
  cbv zeta. unfold seasonality_analysis. cbn [fst snd].
  set (pf := preprocess_columns df).
  destruct (groupby_mean_spec Prep.DayOfWeek pf) as [Kd Nd].
  destruct (groupby_mean_spec Prep.Is_Month_End pf) as [Km Nm].
  assert (Hpf : forall p, In p pf <-> exists r, In r df /\ p = preprocess_row r).
  { intros p. unfold pf, preprocess_columns. rewrite in_map_iff. split.
    - intros [r [<- Hr]]. exists r. split; [now apply sort_In in Hr | reflexivity].
    - intros [r [Hr ->]]. exists r. split; [reflexivity | now apply sort_In]. }
  assert (Hdow : forall w, In w (map Seasonal.Key (groupby_mean Prep.DayOfWeek pf)) <->
                           exists r, In r df /\ Pd.dayofweek (Ledger.Date r) = w).
  { intros w. rewrite Kd, unique_Z_In, in_map_iff. split.
    - intros [p [<- Hp]]. apply Hpf in Hp. destruct Hp as [r [Hr ->]]. now exists r.
    - intros [r [Hr <-]]. exists (preprocess_row r). split; [reflexivity|].
      apply Hpf. now exists r. }
  assert (Hme : forall k, In k (map Seasonal.Key (groupby_mean Prep.Is_Month_End pf)) <->
                  exists r, In r df /\
                    ((k = 1 /\ 25 <= day_of_month (Ledger.Date r))%Z \/
                     (k = 0 /\ day_of_month (Ledger.Date r) < 25)%Z)).
  { intros k. rewrite Km, unique_Z_In, in_map_iff. split.
    - intros [p [<- Hp]]. apply Hpf in Hp. destruct Hp as [r [Hr ->]]. exists r.
      split; [assumption|]. unfold preprocess_row. cbn [Prep.Is_Month_End].
      destruct (25 <=? day_of_month (Ledger.Date r))%Z eqn:E;
        [apply Z.leb_le in E; left | apply Z.leb_gt in E; right];
        (split; [reflexivity | lia]).
    - intros [r [Hr Hk]]. exists (preprocess_row r). split; [|apply Hpf; now exists r].
      unfold preprocess_row. cbn [Prep.Is_Month_End].
      destruct Hk as [[-> Hk] | [-> Hk]].
      + now rewrite (proj2 (Z.leb_le _ _) Hk).
      + now rewrite (proj2 (Z.leb_gt _ _) Hk). }
  split; [rewrite Kd; apply unique_Z_increasing|].
  split; [exact Hdow|]. split.
  - rewrite <- (length_map Seasonal.Key).
    pose proof (increasing_length (map Seasonal.Key (groupby_mean Prep.DayOfWeek pf)) 0 7)
      as H.
    assert (Hle : (Z.of_nat (length (map Seasonal.Key (groupby_mean Prep.DayOfWeek pf)))
                   <= Z.max 0 (7 - 0))%Z).
    { apply H; [rewrite Kd; apply unique_Z_increasing|].
      intros w Hw. apply Hdow in Hw. destruct Hw as [r [_ <-]].
      unfold Pd.dayofweek. pose proof (Z.mod_pos_bound (Ledger.Date r + 3) 7). lia. }
    lia.
  - split; [rewrite Km; apply unique_Z_increasing|].
    split; [exact Hme|]. split.
    + rewrite <- (length_map Seasonal.Key).
      pose proof (increasing_length
                    (map Seasonal.Key (groupby_mean Prep.Is_Month_End pf)) 0 2) as H.
      assert (Hle : (Z.of_nat (length (map Seasonal.Key
                                         (groupby_mean Prep.Is_Month_End pf)))
                     <= Z.max 0 (2 - 0))%Z).
      { apply H; [rewrite Km; apply unique_Z_increasing|].
        intros k Hk. apply Hme in Hk. destruct Hk as [r [_ [[-> _] | [-> _]]]]; lia. }
      lia.
    + apply Forall_app. split; assumption.
Qed.

(** ** The dashboard *)

(** X17.  The confidence band keeps the rows of the forecast, with their
    dates and predictions.  When the filtered history has fewer than two
    rows its standard deviation is missing and so are both bounds of every
    row; a missing prediction has missing bounds; from two rows on, and
    for a multiplier that is not negative, the bounds of a numeric
    prediction are numbers that enclose it. *)
Theorem confidence_band_spec (forecast_df : list BankForecast.row)
    (historical_df : list Ledger.row) (z : Q) :
  let band := add_confidence_band forecast_df historical_df z in
  map Band.Date band = map BankForecast.Date forecast_df /\
  map Band.Predicted_Outflow band = map BankForecast.Predicted_Outflow forecast_df /\
  ((length historical_df < 2)%nat ->
   Forall (fun b => Band.Upper_Bound b = NaN /\ Band.Lower_Bound b = NaN) band) /\
  Forall (fun b => Band.Predicted_Outflow b = NaN ->
            Band.Upper_Bound b = NaN /\ Band.Lower_Bound b = NaN) band /\
  ((2 <= length historical_df)%nat -> 0 <= z ->
   Forall (fun b => forall p, Band.Predicted_Outflow b = Num p ->
             exists u l, Band.Upper_Bound b = Num u /\ Band.Lower_Bound b = Num l /\
                         l <= p /\ p <= u)
          band).
Proof.
  cbv zeta. unfold add_confidence_band. split; [|split; [|split; [|split]]].
  - rewrite map_map. reflexivity.
  - rewrite map_map. reflexivity.
  - intros Hlen. rewrite std_undefined by (now rewrite length_map).
    apply Forall_forall. intros b Hb. apply in_map_iff in Hb. destruct Hb as [f [<- _]].
    cbn [Band.Upper_Bound Band.Lower_Bound]. destruct (BankForecast.Predicted_Outflow f);
      split; reflexivity.
  - apply Forall_forall. intros b Hb. apply in_map_iff in Hb. destruct Hb as [f [<- _]].
    cbn [Band.Upper_Bound Band.Lower_Bound Band.Predicted_Outflow].
    intros ->. split; reflexivity.
  - intros Hlen Hz.
    destruct (std_defined (map Ledger.Outflow_INR historical_df)) as [s [-> Hs]];
      [now rewrite length_map|].
    apply Forall_forall. intros b Hb. apply in_map_iff in Hb. destruct Hb as [f [<- _]].
    cbn [Band.Upper_Bound Band.Lower_Bound Band.Predicted_Outflow].
    intros p ->. cbn [Np.mul Np.add Np.sub].
    eexists. eexists. split; [reflexivity|]. split; [reflexivity|].
    assert (Hzs : 0 <= z * s) by now apply Qmult_le_0_compat.
    split; lra.
Qed.

Lemma unit_divisor_pos (u : unit_choice) : 0 < unit_divisor u.
Proof. destruct u; reflexivity. Qed.

Lemma texts_distinct :
  text_healthy <> text_elevated /\ text_healthy <> text_stable /\
  text_elevated <> text_stable.
Proof.
  repeat split; intros H; apply String.eqb_eq in H; vm_compute in H; discriminate.
Qed.

(** X18.  The executive summary, for any net position (a missing one
    included) and any stress level: it is the "healthy" text exactly when
    the net position is a positive number and the stress is below 10; the
    "elevated risk" text exactly when the stress is 20 or more; the
    "stable" text in every other case.  From a stress of 10 on (the
    slider's default) the "healthy" text is never shown, whatever the net
    position. *)
Theorem executive_summary_spec (net_position : fval) (stress_level : Z) :
  let text := executive_summary net_position stress_level in
  let surplus := exists n, net_position = Num n /\ 0 < n in
  (text = text_healthy <-> surplus /\ (stress_level < 10)%Z) /\
  (text = text_elevated <-> (20 <= stress_level)%Z) /\
  (text = text_stable <->
   (stress_level < 20)%Z /\ ~ (surplus /\ (stress_level < 10)%Z)) /\
  ((10 <= stress_level)%Z -> text <> text_healthy).
Proof.
  cbv zeta. destruct texts_distinct as [D1 [D2 D3]].
  assert (Hgt : Np.gt net_position (Num 0) = true <->
                exists n, net_position = Num n /\ 0 < n).
  { destruct net_position as [n|]; cbn [Np.gt]; split.
    - intros H. exists n. split; [reflexivity | now apply Qlt_bool_iff].
    - intros [n' [E H]]. inversion E. subst n'. now apply Qlt_bool_iff.
    - discriminate.
    - intros [n' [E _]]. discriminate E. }
  unfold executive_summary.
  destruct (Np.gt net_position (Num 0)) eqn:G;
    destruct (Z.ltb_spec stress_level 10) as [H10 | H10];
    destruct (Z.leb_spec 20 stress_level) as [H20 | H20]; cbn [andb]; try lia;
    repeat split; try congruence; try lia; try tauto;
    try (intros _; apply Hgt; reflexivity);
    try (intros [Hs _]; apply Hgt in Hs; congruence);
    try (intros [[Hs _] _]; apply Hgt in Hs; congruence);
    try (intros [Hs _]; lia);
    try (intros [_ Hn]; apply Hn; split; [now apply Hgt | lia]);
    try (intros [Hs _]; apply Hgt in Hs; discriminate Hs).
Qed.

Lemma fold_left_min_le (l : list Z) (x : Z) :
  (fold_left Z.min l x <= x)%Z /\ (forall y, In y l -> (fold_left Z.min l x <= y)%Z).
Proof.
  revert x. induction l as [|a r IH]; intros x; simpl.
  - split; [lia | intros y []].
  - destruct (IH (Z.min x a)) as [H1 H2]. split; [lia|].
    intros y [<- | Hy]; [lia | auto].
Qed.

Lemma default_period_bounds (df : list Ledger.row) (start_date end_date : Z) :
  default_period df = Some (start_date, end_date) ->
  forall r, In r df -> (start_date <= Ledger.Date r <= end_date)%Z.
Proof.
  unfold default_period. destruct df as [|r0 df']; [discriminate|].
  cbn [map]. intros E. inversion E. subst. clear E. intros r Hr.
  destruct (fold_left_min_le (map Ledger.Date df') (Ledger.Date r0)) as [M0 M].
  destruct (fold_left_max_ge (map Ledger.Date df') (Ledger.Date r0)) as [G0 G].
  destruct Hr as [<- | Hr]; [lia|].
  pose proof (M _ (in_map Ledger.Date _ _ Hr)). pose proof (G _ (in_map Ledger.Date _ _ Hr)).
  lia.
Qed.

(** X20.  With the default analysis period (first to last date of the
    ledger) the date filter keeps the whole ledger, and the only forecast
    rows it keeps belong to accounts whose own history ends before the
    ledger's last date; when every account is observed up to the last
    date, the filtered account-level and bank-level forecasts are empty,
    and the forecast chart is skipped. *)
Theorem default_period_hides_forecast (df : list Ledger.row) (horizon rolling_window : nat)
    (alpha : Q) (af : list Forecast.row) (bf : list BankForecast.row)
    (start_date end_date : Z) :
  default_period df = Some (start_date, end_date) ->
  run_baseline_forecasting df horizon rolling_window alpha = Some (af, bf) ->
  filter_period Ledger.Date start_date end_date df = df /\
  Forall (fun b => exists m, last_historical_date df (Forecast.Account_ID b) m /\
                             (m < end_date)%Z)
         (filter_period Forecast.Date start_date end_date af) /\
  ((forall acc m, last_historical_date df acc m -> m = end_date) ->
   filter_period Forecast.Date start_date end_date af = [] /\
   filter_period BankForecast.Date start_date end_date bf = []).
Proof.
  intros Hp Hrun. pose proof (default_period_bounds df start_date end_date Hp) as Hb.
  apply run_baseline_forecasting_Some in Hrun. destruct Hrun as [Haf Hbf].
  assert (Hkept : forall b, In b (filter_period Forecast.Date start_date end_date af) ->
            exists m, last_historical_date df (Forecast.Account_ID b) m /\ (m < end_date)%Z).
  { intros b Hin. unfold filter_period in Hin. apply filter_In in Hin.
    destruct Hin as [Hin Hd]. apply andb_true_iff in Hd. destruct Hd as [_ Hd].
    apply Z.leb_le in Hd. rewrite Haf in Hin.
    destruct (forecast_rows_dated_after df horizon rolling_window alpha b Hin)
      as [_ [m [Hm Hdate]]].
    exists m. split; [exact Hm | lia]. }
  split; [|split].
  - unfold filter_period. apply filter_all. intros r Hr. specialize (Hb r Hr).
    apply andb_true_iff. split; apply Z.leb_le; lia.
  - apply Forall_forall. exact Hkept.
  - intros Hall.
    assert (Hnone : filter_period Forecast.Date start_date end_date af = []).
    { destruct (filter_period Forecast.Date start_date end_date af) as [|b rest] eqn:E;
        [reflexivity|].
      destruct (Hkept b (or_introl eq_refl)) as [m [Hm Hlt]].
      apply Hall in Hm. lia. }
    split; [exact Hnone|].
    unfold filter_period. apply filter_none. intros b Hb'.
    destruct (_ && _) eqn:Ein; [|reflexivity]. exfalso.
    assert (Hd : In (BankForecast.Date b) (map Forecast.Date af)).
    { rewrite Hbf in Hb'. apply (in_map BankForecast.Date) in Hb'.
      rewrite bank_level_forecast_dates, unique_Z_In in Hb'. exact Hb'. }
    apply in_map_iff in Hd. destruct Hd as [f [Ef Hf]].
    assert (Hin : In f (filter_period Forecast.Date start_date end_date af)).
    { unfold filter_period. apply filter_In. split; [exact Hf | now rewrite Ef]. }
    rewrite Hnone in Hin. destruct Hin.
Qed.

(** X21.  The forecast chart has one row per row of the bank forecast.
    For a history of at least two rows, a stress percentage that is not
    negative and a prediction that is a number and not negative, the
    charted prediction is the prediction divided by the unit divisor, the
    charted bounds enclose it, and the stressed outflow is the charted
    prediction raised by [stress_pct] percent, hence never below it. *)
Theorem forecast_chart_spec (bank_fc : list BankForecast.row) (df_filtered : list Ledger.row)
    (u : unit_choice) (stress_pct : Z) :
  (2 <= length df_filtered)%nat ->
  (0 <= stress_pct)%Z ->
  Forall2 (fun f c =>
             Chart.Date c = BankForecast.Date f /\
             forall p, BankForecast.Predicted_Outflow f = Num p -> 0 <= p ->
               exists q lo up st,
                 Chart.Predicted_Outflow c = Num q /\ q == p / unit_divisor u /\
                 Chart.Lower_Bound c = Num lo /\ Chart.Upper_Bound c = Num up /\
                 Chart.Stress_Outflow c = Num st /\
                 lo <= q /\ q <= up /\ q <= st /\
                 st == q * (1 + inject_Z stress_pct / 100))
          bank_fc (forecast_chart bank_fc df_filtered u stress_pct).
Proof.
  intros Hlen Hs. unfold forecast_chart, add_confidence_band. rewrite map_map.
  destruct (std_defined (map Ledger.Outflow_INR df_filtered)) as [s [-> Hs0]];
    [now rewrite length_map|].
  pose proof (unit_divisor_pos u) as Hd. set (d := unit_divisor u) in *.
  assert (Hdiv : forall x, Np.div (Num x) (Num d) = Num (x / d)).
  { intros x. unfold Np.div. now rewrite (Qeq_bool_pos d Hd). }
  assert (Hz : 0 <= default_z * s).
  { apply Qmult_le_0_compat; [discriminate | exact Hs0]. }
  assert (Hpct : 0 <= inject_Z stress_pct / 100).
  { apply Qle_shift_div_l; [reflexivity|]. rewrite Qmult_0_l.
    change 0 with (inject_Z 0). now rewrite <- Zle_Qle. }
  induction bank_fc as [|f rest IH]; cbn [map]; constructor; [|exact IH].
  cbn [Chart.Date Chart.Predicted_Outflow Chart.Lower_Bound Chart.Upper_Bound
       Chart.Stress_Outflow Band.Date Band.Predicted_Outflow Band.Upper_Bound
       Band.Lower_Bound].
  split; [reflexivity|]. intros p -> Hp. cbn [Np.mul Np.add Np.sub]. rewrite !Hdiv.
  cbn [Np.mul].
  exists (p / d), ((p - default_z * s) / d), ((p + default_z * s) / d),
         (p / d * (1 + inject_Z stress_pct / 100)).
  assert (Hq : 0 <= p / d).
  { apply Qle_shift_div_l; [exact Hd | now rewrite Qmult_0_l]. }
  assert (Hi : 0 < / d) by now apply Qinv_lt_0_compat.
  repeat split; try reflexivity.
  - unfold Qdiv. apply Qmult_le_compat_r; [lra | now apply Qlt_le_weak].
  - unfold Qdiv. apply Qmult_le_compat_r; [lra | now apply Qlt_le_weak].
  - nra.
Qed.

(** ** Instances of the further properties *)

Lemma run_two_accounts :
  run_baseline_forecasting ledger_two_accounts 2 default_rolling_window default_alpha =
  Some (forecast_two_accounts, bank_level_forecast forecast_two_accounts).
Proof. vm_compute. reflexivity. Qed.

Lemma window_pos : (0 < default_rolling_window)%nat.
Proof. unfold default_rolling_window. lia. Qed.

(** X2 on the two-account ledger: four rows. *)
Lemma forecast_table_size_witness :
  run_baseline_forecasting ledger_two_accounts 2 default_rolling_window default_alpha =
    Some (forecast_two_accounts, bank_level_forecast forecast_two_accounts) /\
  length forecast_two_accounts =
    (2 * length (nodup string_dec (map Ledger.Account_ID ledger_two_accounts)))%nat.
Proof.
  split; [exact run_two_accounts|].
  exact (forecast_table_size ledger_two_accounts 2 default_rolling_window default_alpha
           forecast_two_accounts (bank_level_forecast forecast_two_accounts)
           run_two_accounts).
Defined.

(** X3 on the two-account ledger. *)
Lemma forecast_rows_after_history_witness :
  run_baseline_forecasting ledger_two_accounts 2 default_rolling_window default_alpha =
    Some (forecast_two_accounts, bank_level_forecast forecast_two_accounts) /\
  Forall (fun b =>
            Forecast.Model b = "BASELINE"%string /\
            exists m, last_historical_date ledger_two_accounts (Forecast.Account_ID b) m /\
              (m < Forecast.Date b <= m + Z.of_nat 2)%Z)
         forecast_two_accounts.
Proof.
  split; [exact run_two_accounts|].
  exact (forecast_rows_after_history ledger_two_accounts 2 default_rolling_window
           default_alpha forecast_two_accounts (bank_level_forecast forecast_two_accounts)
           run_two_accounts).
Defined.


(** X6 on the two-account ledger: two bank rows for four account rows. *)
Lemma bank_forecast_dates_increasing_witness :
  run_baseline_forecasting ledger_two_accounts 2 default_rolling_window default_alpha =
    Some (forecast_two_accounts, bank_level_forecast forecast_two_accounts) /\
  Sorted Z.lt (map BankForecast.Date (bank_level_forecast forecast_two_accounts)) /\
  Forall (fun b => BankForecast.Model b = "BASELINE_BANK"%string)
         (bank_level_forecast forecast_two_accounts) /\
  (2 <= length (bank_level_forecast forecast_two_accounts))%nat /\
  (length (bank_level_forecast forecast_two_accounts) <= length forecast_two_accounts)%nat.
Proof.
  split; [exact run_two_accounts|].
  exact (bank_forecast_dates_increasing ledger_two_accounts 2 default_rolling_window
           default_alpha forecast_two_accounts (bank_level_forecast forecast_two_accounts)
           run_two_accounts).
Defined.

Lemma metrics_two_accounts_keys :
  NoDup (map Metrics.Account_ID (account_behavior_metrics ledger_two_accounts)).
Proof.
  change (NoDup ["ACC001"%string; "ACC002"%string]).
  repeat constructor; simpl; intuition discriminate.
Qed.

(** X7 on the forecast of the two-account ledger, merged with its metrics
    and with empty structural and balance tables. *)
Lemma requirement_rows_one_to_one_witness :
  NoDup (map Metrics.Account_ID (account_behavior_metrics ledger_two_accounts)) /\
  NoDup (map Structural.Account_ID []) /\
  NoDup (map Balances.Account_ID []) /\
  map (fun r => (Requirement.Date r, Requirement.Account_ID r,
                 Requirement.Predicted_Inflow r, Requirement.Predicted_Outflow r))
      (fst (run_cash_requirement_engine forecast_two_accounts
              (account_behavior_metrics ledger_two_accounts) [] []
              default_stress_pct default_confidence_factor)) =
  map (fun f => (Forecast.Date f, Forecast.Account_ID f,
                 Forecast.Predicted_Inflow f, Forecast.Predicted_Outflow f))
      forecast_two_accounts.
Proof.
  split; [exact metrics_two_accounts_keys|]. split; [constructor|]. split; [constructor|].
  apply (requirement_rows_one_to_one forecast_two_accounts
           (account_behavior_metrics ledger_two_accounts) [] []
           default_stress_pct default_confidence_factor);
    [exact metrics_two_accounts_keys | constructor | constructor].
Defined.

Lemma forecast_two_accounts_nonneg :
  Forall (fun f => nonneg (Forecast.Predicted_Outflow f)) forecast_two_accounts.
Proof.
  apply Forall_forall. intros b Hb.
  apply (forecast_rows_nonneg ledger_two_accounts 2 default_rolling_window default_alpha b
           window_pos Hb).
Qed.

(** X9 on the forecast of the two-account ledger, for a stress of 10 and
    of 15 percent. *)
Lemma stress_monotone_witness :
  (10 # 100) <= default_stress_pct /\
  Forall (fun f => nonneg (Forecast.Predicted_Outflow f)) forecast_two_accounts /\
  Forall2 (fun r r' =>
             Requirement.Date r = Requirement.Date r' /\
             Requirement.Account_ID r = Requirement.Account_ID r' /\
             (exists g g', Requirement.Funding_Gap r = Num g /\
                           Requirement.Funding_Gap r' = Num g' /\ g <= g') /\
             (Requirement.Action r = "RAISE_FUNDS"%string ->
              Requirement.Action r' = "RAISE_FUNDS"%string))
          (fst (run_cash_requirement_engine forecast_two_accounts [] [] []
                  (10 # 100) default_confidence_factor))
          (fst (run_cash_requirement_engine forecast_two_accounts [] [] []
                  default_stress_pct default_confidence_factor)).
Proof.
  split; [discriminate|]. split; [exact forecast_two_accounts_nonneg|].
  apply (stress_monotone forecast_two_accounts [] [] [] (10 # 100) default_stress_pct
           default_confidence_factor); [discriminate | exact forecast_two_accounts_nonneg].
Defined.

(** Inflows of 100, 200, 300 and 400 at the default quantile: the
    structural part is interpolated between the first two, 175, and with a
    mean of 250 the volatile part is 75. *)
Example structural_uneven :
  exists rows,
    structural_cash_estimation ledger_uneven default_quantile = Some rows /\
    Forall2 (fun e want =>
               Structural.Structural_Inflow e =f= fst want /\
               Structural.Volatile_Inflow e =f= snd want)
            rows [(Num 175, Num 75)].
Proof.
  eexists. split; [reflexivity|]. repeat constructor; vm_compute; reflexivity.
Qed.

(** X14 on the ledger of uneven inflows, for the default quantile. *)
Lemma structural_estimate_bounds_witness :
  0 <= default_quantile /\ default_quantile <= 1 /\
  exists rows,
    structural_cash_estimation ledger_uneven default_quantile = Some rows /\
    map Structural.Account_ID rows =
      Pd.unique_strings (map Ledger.Account_ID ledger_uneven) /\
    Forall (fun e =>
              exists si v a,
                Structural.Structural_Inflow e = Num si /\
                Structural.Volatile_Inflow e = Num v /\
                Pd.mean (map Ledger.Inflow_INR
                             (rows_of (Structural.Account_ID e) ledger_uneven))
                  = Num a /\
                0 <= v /\ (a <= si -> v == 0) /\ (si <= a -> v == a - si) /\
                (forall lo hi,
                   (forall r, In r ledger_uneven ->
                              Ledger.Account_ID r = Structural.Account_ID e ->
                              lo <= Ledger.Inflow_INR r /\ Ledger.Inflow_INR r <= hi) ->
                   lo <= si /\ si <= hi))
           rows.
Proof.
  split; [discriminate|]. split; [discriminate|].
  apply (structural_estimate_bounds ledger_uneven default_quantile); discriminate.
Defined.

(** X20 on the two-account ledger, whose accounts are both observed on its
    only date. *)
Lemma default_period_hides_forecast_witness :
  default_period ledger_two_accounts = Some (19723, 19723)%Z /\
  run_baseline_forecasting ledger_two_accounts 2 default_rolling_window default_alpha =
    Some (forecast_two_accounts, bank_level_forecast forecast_two_accounts) /\
  filter_period Ledger.Date 19723 19723 ledger_two_accounts = ledger_two_accounts /\
  Forall (fun b => exists m,
            last_historical_date ledger_two_accounts (Forecast.Account_ID b) m /\
            (m < 19723)%Z)
         (filter_period Forecast.Date 19723 19723 forecast_two_accounts) /\
  ((forall acc m, last_historical_date ledger_two_accounts acc m -> m = 19723%Z) ->
   filter_period Forecast.Date 19723 19723 forecast_two_accounts = [] /\
   filter_period BankForecast.Date 19723 19723
     (bank_level_forecast forecast_two_accounts) = []).
Proof.
  split; [reflexivity|]. split; [exact run_two_accounts|].
  apply (default_period_hides_forecast ledger_two_accounts 2 default_rolling_window
           default_alpha forecast_two_accounts (bank_level_forecast forecast_two_accounts)
           19723 19723); [reflexivity | exact run_two_accounts].
Defined.

(** X21 on the bank forecast of the two-account ledger, in lakhs, with the
    slider's default stress of 10 percent. *)
Lemma forecast_chart_spec_witness :
  (2 <= length ledger_two_accounts)%nat /\ (0 <= 10)%Z /\
  Forall2 (fun f c =>
             Chart.Date c = BankForecast.Date f /\
             forall p, BankForecast.Predicted_Outflow f = Num p -> 0 <= p ->
               exists q lo up st,
                 Chart.Predicted_Outflow c = Num q /\ q == p / unit_divisor Lakhs /\
                 Chart.Lower_Bound c = Num lo /\ Chart.Upper_Bound c = Num up /\
                 Chart.Stress_Outflow c = Num st /\
                 lo <= q /\ q <= up /\ q <= st /\
                 st == q * (1 + inject_Z 10 / 100))
          (bank_level_forecast forecast_two_accounts)
          (forecast_chart (bank_level_forecast forecast_two_accounts) ledger_two_accounts
             Lakhs 10).
Proof.
  split; [simpl; lia|]. split; [lia|].
  apply (forecast_chart_spec (bank_level_forecast forecast_two_accounts)
           ledger_two_accounts Lakhs 10); [simpl; lia | lia].
Defined.
